(** * SmartSub subscription tracker: the insights and normalisation engine

    A shallow embedding of [src/subscription_tracker.py]: the keyword
    categoriser [suggest_category], the priority classifier [get_priority],
    the cost normaliser [normalize_cost] and the alert generator
    [generate_insights], together with the pieces of the Python runtime they
    lean on ([float()], [str.lower], [in] on strings, [datetime.strptime] for
    the format [%Y-%m-%d], date subtraction, and the pandas operations
    [duplicated], [unique] and [idxmax]).

    Conventions.
    - A Python [float] is an IEEE 754 binary64 number: [spec_float] with
      precision 53 and maximal exponent 1024, with the operations of
      [SpecFloat].
    - A Python [str] is a [string]; the model is exact on ASCII text
      (bytes above 127 are never case-folded and never count as digits).
    - A raising computation lives in the error monad [result]; a
      [try: ... except:] block is [try_except]. *)

From Stdlib Require Import ZArith List String Ascii Bool Lia Sorted.
From Stdlib Require Import SpecFloat.
From Stdlib Require DecimalString.
Import ListNotations.

Local Open Scope string_scope.
Local Open Scope Z_scope.

(* ===================================================================== *)
(** * Exceptions *)
(* ===================================================================== *)

Module Exn.

(** The exception classes the modelled code can meet. *)
Inductive exn : Type :=
| ValueError
| TypeError
| OverflowError
| KeyError.

Inductive result (A : Type) : Type :=
| Ok (a : A)
| Raise (e : exn).

Arguments Ok {A} a.
Arguments Raise {A} e.

Definition ret {A} (a : A) : result A := Ok a.

Definition bind {A B} (c : result A) (k : A -> result B) : result B :=
  match c with
  | Ok a => k a
  | Raise e => Raise e
  end.

(** [try: body  except: handler] with a bare [except], which catches
    every exception class. *)
Definition try_except {A} (body : result A) (handler : result A) : result A :=
  match body with
  | Ok a => Ok a
  | Raise _ => handler
  end.

Definition returns {A} (c : result A) : Prop := exists a, c = Ok a.

Definition of_option {A} (e : exn) (o : option A) : result A :=
  match o with
  | Some a => Ok a
  | None => Raise e
  end.

End Exn.
Import Exn.

Declare Scope py_scope.
Delimit Scope py_scope with py.
Notation "x <- c ;; k" := (bind c (fun x => k))
  (at level 61, c at next level, right associativity) : py_scope.
Local Open Scope py_scope.

(* ===================================================================== *)
(** * Binary64 floats *)
(* ===================================================================== *)

Module F64.

Definition prec : Z := 53.
Definition emax : Z := 1024.

Definition float := spec_float.

Definition div : float -> float -> float := SFdiv prec emax.
Definition ltb : float -> float -> bool := SFltb.
Definition leb : float -> float -> bool := SFleb.
Definition eqb : float -> float -> bool := SFeqb.

Definition is_nan (x : float) : bool :=
  match x with
  | S754_nan => true
  | _ => false
  end.

Definition nan : float := S754_nan.
Definition infinity : float := S754_infinity false.
Definition neg_infinity : float := S754_infinity true.

(** The integer [z], rounded to nearest-even; an infinity on overflow. *)
Definition of_Z (z : Z) : float := binary_normalize prec emax z 0 false.

(** The rational [p / q] for positive [p] and [q], with sign [s],
    rounded to nearest-even: the quotient is computed to full precision
    with the position of the remainder, then rounded once. *)
Definition of_ratio (s : bool) (p q : positive) : float :=
  let '(mz, ez, lz) := SFdiv_core_binary prec emax (Zpos p) 0 (Zpos q) 0 in
  binary_round_aux prec emax s mz ez lz.

(** [(-1)^s * m * 10^e], correctly rounded. *)
Definition of_decimal (s : bool) (m : Z) (e : Z) : float :=
  match m with
  | Zpos p =>
      match e with
      | Zneg k => of_ratio s p (Pos.pow 10 k)
      | Z0 => of_ratio s p 1
      | Zpos k => of_ratio s (p * Pos.pow 10 k) 1
      end
  | _ => S754_zero s
  end.

Definition zero : float := S754_zero false.

End F64.

Abbreviation float := F64.float.

(* ===================================================================== *)
(** * ASCII text *)
(* ===================================================================== *)

Module Text.

Definition code (c : ascii) : Z := Z.of_nat (nat_of_ascii c).

Definition is_upper (c : ascii) : bool := (65 <=? code c) && (code c <=? 90).

(** [str.lower] on one ASCII character. *)
Definition lower_char (c : ascii) : ascii :=
  if is_upper c then ascii_of_nat (nat_of_ascii c + 32) else c.

(** [str.lower]. *)
Fixpoint lower (s : string) : string :=
  match s with
  | EmptyString => EmptyString
  | String c s' => String (lower_char c) (lower s')
  end.

(** The decimal digit a character stands for. *)
Definition digit (c : ascii) : option Z :=
  if (48 <=? code c) && (code c <=? 57) then Some (code c - 48) else None.

(** The characters [float()] and [str.strip] treat as white space. *)
Definition is_space (c : ascii) : bool :=
  ((9 <=? code c) && (code c <=? 13)) || ((28 <=? code c) && (code c <=? 32)).

Fixpoint lstrip (s : string) : string :=
  match s with
  | String c s' => if is_space c then lstrip s' else s
  | EmptyString => EmptyString
  end.

Fixpoint rstrip (s : string) : string :=
  match s with
  | String c s' =>
      match rstrip s' with
      | EmptyString => if is_space c then EmptyString else String c EmptyString
      | t => String c t
      end
  | EmptyString => EmptyString
  end.

Definition strip (s : string) : string := rstrip (lstrip s).

(** [k in name]: [k] occurs in [name] as a contiguous run. *)
Fixpoint contains (name k : string) : bool :=
  String.prefix k name
  || match name with
     | EmptyString => false
     | String _ rest => contains rest k
     end.

(** The value of a digit string read most-significant first. *)
Definition digits_value (ds : list Z) : Z :=
  fold_left (fun acc d => 10 * acc + d) ds 0.

(** [str(n)] of a Python [int]. *)
Definition str_of_Z (n : Z) : string :=
  DecimalString.NilZero.string_of_int (Z.to_int n).

End Text.

(* ===================================================================== *)
(** * Python values and [float()] *)
(* ===================================================================== *)

Inductive pyvalue : Type :=
| PyNone
| PyBool (b : bool)
| PyInt (n : Z)
| PyFloat (x : float)
| PyStr (s : string).

(** [v == s] for a string literal [s]: values of another type are unequal
    to every string. *)
Definition py_eq_str (v : pyvalue) (s : string) : bool :=
  match v with
  | PyStr t => String.eqb t s
  | _ => false
  end.

Module FloatParse.

Import Text.

(** [digit (["_"] digit)*] after a first digit: the digits read, and the
    text left over. *)
Fixpoint digitpart_tail (s : string) : list Z * string :=
  match s with
  | String c s' =>
      match digit c with
      | Some d => let (ds, r) := digitpart_tail s' in (d :: ds, r)
      | None =>
          if Ascii.eqb c "_" then
            match s' with
            | String c2 s'' =>
                match digit c2 with
                | Some d => let (ds, r) := digitpart_tail s'' in (d :: ds, r)
                | None => ([], s)
                end
            | EmptyString => ([], s)
            end
          else ([], s)
      end
  | EmptyString => ([], EmptyString)
  end.

Definition digitpart (s : string) : option (list Z * string) :=
  match s with
  | String c s' =>
      match digit c with
      | Some d => let (ds, r) := digitpart_tail s' in Some (d :: ds, r)
      | None => None
      end
  | EmptyString => None
  end.

(** An optional sign: [true] for ["-"]. *)
Definition sign (s : string) : bool * string :=
  match s with
  | String "-" s' => (true, s')
  | String "+" s' => (false, s')
  | _ => (false, s)
  end.

(** [number ::= [digitpart] "." digitpart | digitpart ["."]]:
    integer digits, fraction digits, rest. *)
Definition number (s : string) : option (list Z * list Z * string) :=
  match digitpart s with
  | Some (ip, String "." r) =>
      match digitpart r with
      | Some (fp, r') => Some (ip, fp, r')
      | None => Some (ip, [], r)
      end
  | Some (ip, r) => Some (ip, [], r)
  | None =>
      match s with
      | String "." r =>
          match digitpart r with
          | Some (fp, r') => Some ([], fp, r')
          | None => None
          end
      | _ => None
      end
  end.

(** [exponent ::= ("e" | "E") [sign] digitpart]; absent when the text
    does not start with a complete exponent. *)
Definition exponent (s : string) : Z * string :=
  match s with
  | String c r =>
      if Ascii.eqb (lower_char c) "e" then
        let (neg, r1) := sign r in
        match digitpart r1 with
        | Some (ds, r2) =>
            ((if neg then - digits_value ds else digits_value ds), r2)
        | None => (0, s)
        end
      else (0, s)
  | EmptyString => (0, s)
  end.

Definition floatnumber (neg : bool) (s : string) : option float :=
  match number s with
  | Some (ip, fp, r) =>
      let (e, r') := exponent r in
      match r' with
      | EmptyString =>
          Some (F64.of_decimal neg (digits_value (ip ++ fp))
                               (e - Z.of_nat (List.length fp)))
      | _ => None
      end
  | None => None
  end.

(** [float(s)] for a string: white space stripped, then
    [[sign] (floatnumber | infinity | nan)]. *)
Definition parse (s : string) : option float :=
  let (neg, body) := sign (strip s) in
  let word := lower body in
  if String.eqb word "inf" || String.eqb word "infinity" then
    Some (S754_infinity neg)
  else if String.eqb word "nan" then Some S754_nan
  else floatnumber neg body.

End FloatParse.

(** [float(v)]. *)
Definition py_float (v : pyvalue) : result float :=
  match v with
  | PyFloat x => Ok x
  | PyInt n =>
      match F64.of_Z n with
      | S754_infinity _ => Raise OverflowError
      | x => Ok x
      end
  | PyBool b => Ok (F64.of_Z (if b then 1 else 0))
  | PyStr s => of_option ValueError (FloatParse.parse s)
  | PyNone => Raise TypeError
  end.

(* ===================================================================== *)
(** * The cost normaliser *)
(* ===================================================================== *)

(** [normalize_cost(cost, cycle)], lines 43-50. *)
Definition normalize_cost (cost cycle : pyvalue) : result float :=
  try_except
    (cost <- py_float cost ;;
     if py_eq_str cycle "Yearly" then ret (F64.div cost (F64.of_Z 12))
     else if py_eq_str cycle "Quarterly" then ret (F64.div cost (F64.of_Z 3))
     else ret cost)
    (ret F64.zero).

(* ===================================================================== *)
(** * The categoriser and the priority classifier *)
(* ===================================================================== *)

(** The [keywords] dict of [suggest_category], in insertion order, which is
    the order [dict.items()] iterates in. *)
Definition keywords : list (string * list string) :=
  [ ("Entertainment",
      ["netflix"; "hulu"; "disney"; "hbo"; "prime"; "cinema"; "youtube"; "tv"]);
    ("Music",
      ["spotify"; "apple music"; "tidal"; "deezer"; "pandora"; "music"; "sound"]);
    ("Productivity",
      ["notion"; "evernote"; "todoist"; "linear"; "jira"; "slack"; "zoom";
       "office"; "microsoft"]);
    ("Utilities",
      ["internet"; "electric"; "water"; "gas"; "mobile"; "phone"; "verizon";
       "at&t"; "t-mobile"]);
    ("Software",
      ["adobe"; "figma"; "github"; "gitlab"; "aws"; "cloud"; "hosting";
       "domain"; "chatgpt"; "openai"]);
    ("Fitness",
      ["gym"; "fitness"; "yoga"; "peloton"; "strava"; "health"; "myfitnesspal"]);
    ("Shopping",
      ["amazon"; "walmart"; "costco"; "prime"; "delivery"; "uber"]) ].

(** [any(k in name for k in keys)]. *)
Definition any_key_in (name : string) (keys : list string) : bool :=
  existsb (fun k => Text.contains name k) keys.

(** The [for category, keys in keywords.items()] loop with its early
    [return], and the [return 'Uncategorized'] after it. *)
Fixpoint suggest_loop (name : string) (items : list (string * list string))
  : string :=
  match items with
  | [] => "Uncategorized"
  | (category, keys) :: rest =>
      if any_key_in name keys then category else suggest_loop name rest
  end.

(** [suggest_category(name)], lines 20-35. *)
Definition suggest_category (name : string) : string :=
  let name := Text.lower name in
  suggest_loop name keywords.

Definition essentials : list string :=
  ["Utilities"; "Productivity"; "Software"; "Fitness"].

(** [category in essentials]. *)
Definition py_in (x : string) (l : list string) : bool :=
  existsb (fun y => String.eqb y x) l.

(** [get_priority(category)], lines 37-41. *)
Definition get_priority (category : string) : string :=
  if py_in category essentials then "1st Priority" else "2nd Priority".

(** The category enumeration of the data model (the choices of the
    category select box, line 135). *)
Definition categories : list string :=
  ["Entertainment"; "Music"; "Productivity"; "Utilities"; "Software";
   "Fitness"; "Shopping"; "Uncategorized"].

(* ===================================================================== *)
(** * Calendar dates *)
(* ===================================================================== *)

Module Date.

Record date : Type := mkdate { year : Z; month : Z; day : Z }.

Definition is_leap (y : Z) : bool :=
  (y mod 4 =? 0) && (negb (y mod 100 =? 0) || (y mod 400 =? 0)).

Definition days_in_month (y m : Z) : Z :=
  if m =? 2 then (if is_leap y then 29 else 28)
  else if (m =? 4) || (m =? 6) || (m =? 9) || (m =? 11) then 30
  else 31.

(** Days before 1 January of year [y]. *)
Definition days_before_year (y : Z) : Z :=
  let y := y - 1 in
  y * 365 + y / 4 - y / 100 + y / 400.

(** Days of year [y] before the first of month [m]. *)
Definition days_before_month (y m : Z) : Z :=
  nth (Z.to_nat m) [0; 0; 31; 59; 90; 120; 151; 181; 212; 243; 273; 304; 334] 0
  + (if (2 <? m) && is_leap y then 1 else 0).

(** [date.toordinal()]: 1 for 0001-01-01. *)
Definition toordinal (d : date) : Z :=
  days_before_year (year d) + days_before_month (year d) (month d) + day d.

(** [(a - b).days]. *)
Definition days_between (a b : date) : Z := toordinal a - toordinal b.

(** The range check of the [date] constructor. *)
Definition valid (d : date) : bool :=
  (1 <=? year d) && (year d <=? 9999)
  && (1 <=? month d) && (month d <=? 12)
  && (1 <=? day d) && (day d <=? days_in_month (year d) (month d)).

Definition is_digit (c : ascii) : bool :=
  match Text.digit c with Some _ => true | None => false end.

Definition in_range (lo hi : Z) (c : ascii) : bool :=
  (lo <=? Text.code c) && (Text.code c <=? hi).

Definition number_of (s : string) : Z :=
  Text.digits_value
    (List.map (fun c => Text.code c - 48) (list_ascii_of_string s)).

(** [%Y], the pattern [\d\d\d\d]: the year and the text after it. *)
Definition field_Y (s : string) : option (Z * string) :=
  match s with
  | String a (String b (String c (String d r))) =>
      if is_digit a && is_digit b && is_digit c && is_digit d
      then Some (number_of (String a (String b (String c (String d "")))), r)
      else None
  | _ => None
  end.

(** [%m] followed by the literal ["-"]: the pattern
    [(1[0-2]|0[1-9]|[1-9])-], alternatives tried left to right. *)
Definition field_m_dash (s : string) : option (Z * string) :=
  let two :=
    match s with
    | String a (String b (String "-" r)) =>
        if (Ascii.eqb a "1" && in_range 48 50 b)
           || (Ascii.eqb a "0" && in_range 49 57 b)
        then Some (number_of (String a (String b "")), r)
        else None
    | _ => None
    end in
  match two with
  | Some res => Some res
  | None =>
      match s with
      | String a (String "-" r) =>
          if in_range 49 57 a then Some (number_of (String a ""), r) else None
      | _ => None
      end
  end.

(** [%d], the pattern [3[0-1]|[1-2]\d|0[1-9]|[1-9]| [1-9]]: the first
    alternative that matches a prefix, and the text it leaves. *)
Definition field_d (s : string) : option (Z * string) :=
  let two :=
    match s with
    | String a (String b r) =>
        if (Ascii.eqb a "3" && in_range 48 49 b)
           || (in_range 49 50 a && is_digit b)
           || (Ascii.eqb a "0" && in_range 49 57 b)
        then Some (number_of (String a (String b "")), r)
        else None
    | _ => None
    end in
  match two with
  | Some res => Some res
  | None =>
      match s with
      | String a r =>
          if in_range 49 57 a then Some (number_of (String a ""), r)
          else
            match r with
            | String b r' =>
                if Ascii.eqb a " " && in_range 49 57 b
                then Some (number_of (String b ""), r')
                else None
            | EmptyString => None
            end
      | EmptyString => None
      end
  end.

(** [datetime.strptime(s, '%Y-%m-%d').date()]: the text must match the
    pattern with nothing left over, and name a real calendar day. *)
Definition strptime (s : string) : result date :=
  match field_Y s with
  | Some (y, String "-" r1) =>
      match field_m_dash r1 with
      | Some (m, r2) =>
          match field_d r2 with
          | Some (d, EmptyString) =>
              let dt := mkdate y m d in
              if valid dt then Ok dt else Raise ValueError
          | _ => Raise ValueError
          end
      | None => Raise ValueError
      end
  | _ => Raise ValueError
  end.

End Date.

Abbreviation date := Date.date.

(* ===================================================================== *)
(** * Records, frames and insights *)
(* ===================================================================== *)

(** One row of the subscriptions table, with the columns of [load_data]:
    [Cost] is a float column and the other columns hold text. *)
Record subscription : Type := mksub {
  Name : string;
  Cost : float;
  Billing_Cycle : string;
  Category : string;
  Renewal_Date : string
}.

(** One entry of the [insights] list: a dict with the keys ["type"],
    ["title"] and ["msg"]. *)
Record insight : Type := mkinsight {
  type : string;
  title : string;
  msg : string
}.

Module Frame.

(** A frame is its rows in order, each under its index label.  A frame
    that comes from [load_data] carries the default index 0, 1, 2, ...;
    a boolean mask keeps the labels of the rows it selects. *)
Definition frame : Type := list (nat * subscription).

Definition of_rows (rows : list subscription) : frame :=
  combine (seq 0 (List.length rows)) rows.

Definition rows (df : frame) : list subscription := List.map snd df.

(** [df.empty]. *)
Definition empty (df : frame) : bool :=
  match df with [] => true | _ => false end.

(** [df[mask]] for the mask [column.apply(p)]. *)
Definition select (p : subscription -> bool) (df : frame) : frame :=
  List.filter (fun lr => p (snd lr)) df.

(** [df.loc[label]] on a frame with distinct labels. *)
Definition loc (df : frame) (label : nat) : result subscription :=
  of_option KeyError
    (option_map snd (List.find (fun lr => Nat.eqb (fst lr) label) df)).

(** The scan of [argmax]: the position of the first largest value, a
    later value replacing the best so far only when strictly greater. *)
Fixpoint argmax_from (best_i : nat) (best : float) (i : nat) (l : list float)
  : nat :=
  match l with
  | [] => best_i
  | x :: l' =>
      if F64.ltb best x then argmax_from i x (S i) l'
      else argmax_from best_i best (S i) l'
  end.

Definition fill_nan (x : float) : float :=
  if F64.is_nan x then F64.neg_infinity else x.

(** [nanops.nanargmax] with [skipna=True]: missing values count as
    minus infinity; a column with no value at all has no maximum. *)
Definition nanargmax (l : list float) : result nat :=
  if forallb F64.is_nan l then Raise ValueError
  else
    match List.map fill_nan l with
    | [] => Raise ValueError
    | x :: l' => Ok (argmax_from 0 x 1 l')
    end.

(** [df['Cost'].idxmax()]: the label at the position of the maximum. *)
Definition idxmax_Cost (df : frame) : result nat :=
  i <- nanargmax (List.map (fun lr => Cost (snd lr)) df) ;;
  of_option KeyError (nth_error (List.map fst df) i).

(** [series.unique()]: the distinct values, in order of appearance. *)
Fixpoint unique_from (seen : list string) (l : list string) : list string :=
  match l with
  | [] => []
  | x :: l' =>
      if py_in x seen then unique_from seen l'
      else x :: unique_from (x :: seen) l'
  end.

Definition unique (l : list string) : list string := unique_from [] l.

Definition count (x : string) (l : list string) : nat :=
  List.length (List.filter (String.eqb x) l).

(** [df[df.duplicated(subset=['Name'], keep=False)]]: every row whose
    name is borne by more than one row. *)
Definition duplicated_Name (df : frame) : frame :=
  let names := List.map Name (rows df) in
  select (fun r => Nat.ltb 1 (count (Name r) names)) df.

End Frame.

Abbreviation frame := Frame.frame.

(** [l.append(x)]. *)
Definition append {A : Type} (l : list A) (x : A) : list A := (l ++ [x])%list.

(** A [for] loop over [l] that threads the state [s] through a body that
    can raise. *)
Fixpoint for_each {A S : Type} (body : S -> A -> result S) (l : list A) (s : S)
  : result S :=
  match l with
  | [] => ret s
  | a :: l' => s' <- body s a ;; for_each body l' s'
  end.

(* ===================================================================== *)
(** * The insights engine *)
(* ===================================================================== *)

Section Insights.

(** How a float is printed inside an f-string ([format(x, '')], the
    shortest text that reads back as [x]); the interpreter supplies it. *)
Variable float_str : float -> string.

(** [datetime.now().date()], read once at the start of a pass. *)
Variable today : date.

Definition renewal_insight (row : subscription) (days_until : Z) : insight :=
  {| type := "Critical";
     title := "Renewal Alert: " ++ Name row;
     msg := "Renews in " ++ Text.str_of_Z days_until
            ++ " day(s). Cost: ₹" ++ float_str (Cost row) |}.

Definition suggestion_insight (most_expensive : subscription) : insight :=
  {| type := "Suggestion";
     title := "Spending Strategy";
     msg := "Consider pausing '" ++ Name most_expensive ++ "' (₹"
            ++ float_str (Cost most_expensive)
            ++ ") if you need to save money." |}.

Definition duplicate_insight (name : string) : insight :=
  {| type := "Warning";
     title := "Duplicate Found";
     msg := "You have multiple subscriptions for '" ++ name ++ "'." |}.

(** The body of the loop of part A, lines 81-92: on any exception the
    loop moves on to the next row ([continue]). *)
Definition renewal_body (insights : list insight) (row : subscription)
  : result (list insight) :=
  try_except
    (renewal_date <- Date.strptime (Renewal_Date row) ;;
     let days_until := Date.days_between renewal_date today in
     if (0 <=? days_until) && (days_until <=? 2)
     then ret (append insights (renewal_insight row days_until))
     else ret insights)
    (ret insights).

(** Part B, lines 95-105: on any exception nothing is added ([pass]). *)
Definition suggestion_part (df : frame) (insights : list insight)
  : result (list insight) :=
  try_except
    (let lifestyle_subs :=
       Frame.select
         (fun r => String.eqb (get_priority (Category r)) "2nd Priority") df in
     if negb (Frame.empty lifestyle_subs) then
       label <- Frame.idxmax_Cost lifestyle_subs ;;
       most_expensive <- Frame.loc lifestyle_subs label ;;
       ret (append insights (suggestion_insight most_expensive))
     else ret insights)
    (ret insights).

(** Part C, lines 108-115. *)
Definition duplicate_part (df : frame) (insights : list insight)
  : result (list insight) :=
  let duplicates := Frame.duplicated_Name df in
  if negb (Frame.empty duplicates) then
    for_each (fun insights name => ret (append insights (duplicate_insight name)))
             (Frame.unique (List.map Name (Frame.rows duplicates)))
             insights
  else ret insights.

(** [generate_insights(df)], lines 72-117, on the frame that holds
    [records] under the default index. *)
Definition generate_insights (records : list subscription)
  : result (list insight) :=
  let df := Frame.of_rows records in
  let insights := [] in
  if Frame.empty df then ret insights
  else
    insights <- for_each renewal_body (Frame.rows df) insights ;;
    insights <- suggestion_part df insights ;;
    insights <- duplicate_part df insights ;;
    ret insights.

End Insights.

Definition sample_float_str (x : float) : string :=
  match x with
  | S754_zero _ => "0.0"
  | _ => "?"
  end.

Definition sub (name : string) (cost : Z) (category renewal : string)
  : subscription :=
  mksub name (F64.of_Z cost) "Monthly" category renewal.

(* ===================================================================== *)
(** * The vocabulary of the properties *)
(* ===================================================================== *)

(** The billing cycles of the data model (the choices of the cycle select
    box, line 133). *)
Definition cycles : list string := ["Monthly"; "Yearly"; "Quarterly"].

Definition recognized_cycle (cycle : pyvalue) : bool :=
  existsb (py_eq_str cycle) cycles.

Definition not_a_number (cost : pyvalue) : Prop :=
  exists e, py_float cost = Raise e.

(** The claim C1 as the specification words it: a cost that is not a
    number, or an unrecognised cycle, gives 0.0. *)
Definition zero_on_bad_input : Prop :=
  forall cost cycle : pyvalue,
    not_a_number cost \/ recognized_cycle cycle = false ->
    normalize_cost cost cycle = Ok F64.zero.

(** [k] occurs in [name]: some text before it, some text after it. *)
Definition occurs_in (k name : string) : Prop :=
  exists a b : string, name = a ++ k ++ b.

(** Some keyword of [keys] occurs in [name]. *)
Definition has_keyword (name : string) (keys : list string) : Prop :=
  exists k, In k keys /\ occurs_in k name.

(** The category order of the claim. *)
Definition category_order : list string :=
  ["Entertainment"; "Music"; "Productivity"; "Utilities"; "Software";
   "Fitness"; "Shopping"].

(** The insights of one severity, in the order they were emitted. *)
Definition of_type (t : string) (l : list insight) : list insight :=
  List.filter (fun i => String.eqb (type i) t) l.

(** What the loop of part A adds for one row. *)
Definition renewal_of (float_str : float -> string) (today : date)
           (row : subscription) : list insight :=
  match Date.strptime (Renewal_Date row) with
  | Ok renewal_date =>
      let days_until := Date.days_between renewal_date today in
      if (0 <=? days_until) && (days_until <=? 2)
      then [renewal_insight float_str row days_until]
      else []
  | Raise _ => []
  end.

(** The names part C warns about. *)
Definition duplicate_names (records : list subscription) : list string :=
  Frame.unique
    (List.map Name
       (Frame.rows (Frame.duplicated_Name (Frame.of_rows records)))).

(** The text is not a date: [strptime] raises on it. *)
Definition not_a_date (s : string) : Prop :=
  exists e, Date.strptime s = Raise e.

(** The rule of the renewal detector for one record, in the words of the
    specification: with a date that parses, exactly one Critical insight
    when the day difference is 0, 1 or 2 and none otherwise; with a date
    that does not parse, none. *)
Definition renewal_rule (float_str : float -> string) (today : date)
           (r : subscription) (emitted : list insight) : Prop :=
  match Date.strptime (Renewal_Date r) with
  | Ok renewal_date =>
      let days_until := Date.days_between renewal_date today in
      (0 <= days_until <= 2 ->
       emitted = [renewal_insight float_str r days_until])
      /\ (~ (0 <= days_until <= 2) -> emitted = [])
  | Raise _ => emitted = []
  end.

(** The position at which [x] first appears in [l] (the length of [l]
    when it never does). *)
Fixpoint first_index (x : string) (l : list string) : nat :=
  match l with
  | [] => 0
  | y :: l' => if String.eqb y x then 0 else S (first_index x l')
  end.

(** [a] first appears before [b] first appears. *)
Definition appears_first (names : list string) (a b : string) : Prop :=
  (first_index a names < first_index b names)%nat.

(** The names borne by more than one row, each once, read off a list of
    names the way part C reads them off the frame. *)
Definition duplicated_among (names : list string) : list string :=
  Frame.unique
    (List.filter (fun n => Nat.ltb 1 (Frame.count n names)) names).

Module F64Scale.

(** A number that is not a NaN is placed on a lexicographic scale: its
    class (minus infinity, negative, zero, positive, plus infinity), then
    its exponent and its mantissa, counted downwards for a negative
    number. Both zeros share one place. *)
Definition key (x : float) : Z * Z * Z :=
  match x with
  | S754_nan => (0, 0, 0)
  | S754_zero _ => (0, 0, 0)
  | S754_infinity true => (-2, 0, 0)
  | S754_infinity false => (2, 0, 0)
  | S754_finite false m e => (1, e, Zpos m)
  | S754_finite true m e => (-1, - e, Zneg m)
  end.

Definition lex_lt (a b : Z * Z * Z) : Prop :=
  let '(a1, a2, a3) := a in
  let '(b1, b2, b3) := b in
  a1 < b1 \/ (a1 = b1 /\ (a2 < b2 \/ (a2 = b2 /\ a3 < b3))).

Definition number (x : float) : Prop := F64.is_nan x = false.

End F64Scale.

Import F64Scale.

(** The record is discretionary: its derived priority is the second. *)
Definition discretionary (r : subscription) : bool :=
  String.eqb (get_priority (Category r)) "2nd Priority".

(** The invariant of the data model that [load_data] establishes with
    [fillna(0.0)]: the cost of the record is a number, not a NaN. *)
Definition cost_is_number (r : subscription) : Prop := number (Cost r).

(* ===================================================================== *)
(** * The page: entry form, listing and insights panel *)
(* ===================================================================== *)

(** [suggested_cat], line 127: an empty name is falsy and is not passed
    to the categoriser. *)
Definition suggested_cat (name : string) : string :=
  match name with
  | EmptyString => "Uncategorized"
  | _ => suggest_category name
  end.

(** The options of the category select box, lines 135-138; the first one
    is preselected. *)
Definition category_options (name : string) : list string :=
  [ suggested_cat name; "Entertainment"; "Music"; "Productivity";
    "Utilities"; "Software"; "Fitness"; "Shopping"; "Uncategorized" ].

Module Iso.

(** The character of a decimal digit. *)
Definition digit_char (n : Z) : ascii := ascii_of_nat (Z.to_nat (48 + n)).

(** [%02d] and [%04d] on a number that fits. *)
Definition pad2 (n : Z) : string :=
  String (digit_char (n / 10 mod 10)) (String (digit_char (n mod 10)) "").

Definition pad4 (n : Z) : string :=
  String (digit_char (n / 1000 mod 10))
    (String (digit_char (n / 100 mod 10)) (pad2 n)).

(** [str(d)] of a [date], which is [d.isoformat()]: the text under which
    the renewal date of the form (lines 140 and 151) reaches the table. *)
Definition isoformat (d : date) : string :=
  pad4 (Date.year d) ++ "-" ++ pad2 (Date.month d) ++ "-" ++ pad2 (Date.day d).

End Iso.

(** [df.drop(index=i)], line 190: the rows under another label; a label
    the index does not hold is a [KeyError]. *)
Definition drop_index (df : frame) (i : nat) : result frame :=
  if existsb (fun lr => Nat.eqb (fst lr) i) df
  then Ok (List.filter (fun lr => negb (Nat.eqb (fst lr) i)) df)
  else Raise KeyError.

(** The calls the insights panel makes, lines 198-207. *)
Inductive widget : Type :=
| st_error (body : string)
| st_warning (body : string)
| st_info (body : string)
| st_success (body : string).

Definition newline : string := String "010"%char "".

(** The f-string of lines 201, 203 and 205. *)
Definition item_text (item : insight) : string :=
  "**" ++ title item ++ "**" ++ newline ++ newline ++ msg item.

Definition render_item (item : insight) : widget :=
  if String.eqb (type item) "Critical" then st_error (item_text item)
  else if String.eqb (type item) "Warning" then st_warning (item_text item)
  else st_info (item_text item).

(** [if insights: for item in insights: ... else: st.success(...)]. *)
Definition insights_panel (insights : list insight) : list widget :=
  match insights with
  | [] => [st_success "All systems go! No alerts detected."]
  | _ => List.map render_item insights
  end.

(** The record is due: its date parses and lies 0, 1 or 2 days ahead. *)
Definition due (today : date) (r : subscription) : bool :=
  match Date.strptime (Renewal_Date r) with
  | Ok renewal_date =>
      let days_until := Date.days_between renewal_date today in
      (0 <=? days_until) && (days_until <=? 2)
  | Raise _ => false
  end.

(** What part B adds, read off the discretionary rows by position. *)
Definition pick_suggestion (float_str : float -> string)
           (lifestyle : list subscription) : list insight :=
  match lifestyle with
  | [] => []
  | _ =>
      match Frame.nanargmax (List.map Cost lifestyle) with
      | Ok i =>
          match nth_error lifestyle i with
          | Some most_expensive => [suggestion_insight float_str most_expensive]
          | None => []
          end
      | Raise _ => []
      end
  end.

(** The two fields of a record the suggestion quotes. *)
Definition name_and_cost (r : subscription) : string * float :=
  (Name r, Cost r).

(** [x >= 0.0]. *)
Definition non_negative (x : float) : Prop := F64.leb F64.zero x = true.

(** The sign of a number; a NaN has none. *)
Definition sign_bit (x : float) : option bool :=
  match x with
  | S754_nan => None
  | S754_zero s | S754_infinity s | S754_finite s _ _ => Some s
  end.

(** The categories in precedence order, with the fallback last. *)
Definition precedence : list string :=
  (List.map fst keywords ++ ["Uncategorized"])%list.

(* ===================================================================== *)
(** * The model on sample inputs *)
(* ===================================================================== *)

Example of_Z_10 : F64.of_Z 10 = S754_finite false 5629499534213120 (-49).
Proof. reflexivity. Qed.

Example of_decimal_tenth :
  F64.of_decimal false 1 (-1) = S754_finite false 7205759403792794 (-56).
Proof. reflexivity. Qed.

Example lower_Netflix : Text.lower "NetFlix 4K" = "netflix 4k".
Proof. reflexivity. Qed.

Example strip_padded : Text.strip "  1.5 " = "1.5".
Proof. reflexivity. Qed.

Example str_of_Z_samples :
  Text.str_of_Z 0 = "0" /\ Text.str_of_Z 2 = "2" /\ Text.str_of_Z (-17) = "-17".
Proof. repeat split. Qed.

Example float_of_bad : py_float (PyStr "bad") = Raise ValueError.
Proof. reflexivity. Qed.

Example float_of_text :
  py_float (PyStr " 1_200.50e-1 ") = Ok (S754_finite false 8447767738528563 (-46))
  /\ py_float (PyStr "-.5") = Ok (S754_finite true 4503599627370496 (-53))
  /\ py_float (PyStr "1e400") = Ok (S754_infinity false)
  /\ py_float (PyStr "-Infinity") = Ok (S754_infinity true)
  /\ py_float (PyStr "1e") = Raise ValueError
  /\ py_float (PyStr "1__0") = Raise ValueError
  /\ py_float (PyStr "") = Raise ValueError
  /\ py_float (PyStr "12.") = Ok (F64.of_Z 12).
Proof. repeat split. Qed.

Example float_of_huge_int : py_float (PyInt (10 ^ 400)) = Raise OverflowError.
Proof. reflexivity. Qed.

Example strptime_samples :
  Date.strptime "2024-01-12" = Ok (Date.mkdate 2024 1 12)
  /\ Date.strptime "2024-1-5" = Ok (Date.mkdate 2024 1 5)
  /\ Date.strptime "2024-02-29" = Ok (Date.mkdate 2024 2 29)
  /\ Date.strptime "2023-02-29" = Raise ValueError
  /\ Date.strptime "2024-13-01" = Raise ValueError
  /\ Date.strptime "2024-01-123" = Raise ValueError
  /\ Date.strptime "2024-01-12 " = Raise ValueError
  /\ Date.strptime "0000-01-01" = Raise ValueError
  /\ Date.strptime "nan" = Raise ValueError
  /\ Date.strptime "12/01/2024" = Raise ValueError.
Proof. repeat split. Qed.

Example toordinal_samples :
  Date.toordinal (Date.mkdate 1 1 1) = 1
  /\ Date.toordinal (Date.mkdate 2024 1 10) = 738895
  /\ Date.toordinal (Date.mkdate 2024 3 1) = 738946.
Proof. repeat split. Qed.

Example insights_sample :
  generate_insights sample_float_str (Date.mkdate 2024 1 10)
    [ sub "A" 5 "Music" "2024-01-12";
      sub "B" 40 "Shopping" "bad";
      sub "A" 12 "Utilities" "2024-01-13" ]
  = Ok [ mkinsight "Critical" "Renewal Alert: A" "Renews in 2 day(s). Cost: ₹?";
         mkinsight "Suggestion" "Spending Strategy"
           "Consider pausing 'B' (₹?) if you need to save money.";
         mkinsight "Warning" "Duplicate Found"
           "You have multiple subscriptions for 'A'." ].
Proof. vm_compute. reflexivity. Qed.

(* ===================================================================== *)
(** * The priority classifier: theorems *)
(* ===================================================================== *)

Lemma py_in_In (x : string) (l : list string) : py_in x l = true <-> In x l.
Proof.
  unfold py_in. rewrite existsb_exists. split.
  - intros [y [Hy Heq]]. apply String.eqb_eq in Heq. now subst.
  - intros H. exists x. split; [assumption | apply String.eqb_refl].
Qed.

Lemma get_priority_cases (category : string) :
  (In category essentials /\ get_priority category = "1st Priority")
  \/ (~ In category essentials /\ get_priority category = "2nd Priority").
Proof.
  unfold get_priority.
  destruct (py_in category essentials) eqn:E.
  - left. split; [now apply py_in_In | reflexivity].
  - right. split; [| reflexivity].
    intros H. apply py_in_In in H. congruence.
Qed.

Lemma In_essentials (category : string) :
  In category essentials <->
  category = "Utilities" \/ category = "Productivity"
  \/ category = "Software" \/ category = "Fitness".
Proof.
  unfold essentials. simpl. intuition congruence.
Qed.

(** C7. On the category enumeration the classifier is total and returns
    exactly one of the two tiers: the first tier exactly for Utilities,
    Productivity, Software and Fitness, and the second tier for every
    other member, Uncategorized included. *)
Theorem get_priority_on_categories :
  forall category : string,
    In category categories ->
    (get_priority category = "1st Priority"
     \/ get_priority category = "2nd Priority")
    /\ "1st Priority" <> "2nd Priority"
    /\ (get_priority category = "1st Priority" <->
        In category ["Utilities"; "Productivity"; "Software"; "Fitness"])
    /\ (get_priority category = "2nd Priority" <->
        In category ["Entertainment"; "Music"; "Shopping"; "Uncategorized"]).
Proof.
  intros category Hin.
  assert (Hne : "1st Priority" <> "2nd Priority") by discriminate.
  unfold categories in Hin. simpl in Hin.
  repeat destruct Hin as [<- | Hin]; try contradiction;
    (split; [ (left; reflexivity) || (right; reflexivity) | ]);
    (split; [ exact Hne | ]);
    split; split; intros H; simpl in *;
    try reflexivity; try discriminate; intuition discriminate.
Qed.

Lemma get_priority_on_categories_witness :
  get_priority "Uncategorized" = "2nd Priority"
  /\ get_priority "Software" = "1st Priority".
Proof.
  split.
  - apply (proj2 (proj2 (proj2
      (get_priority_on_categories "Uncategorized"
         ltac:(simpl; intuition))))).
    simpl. intuition.
  - apply (proj1 (proj2 (proj2
      (get_priority_on_categories "Software" ltac:(simpl; intuition))))).
    simpl. intuition.
Defined.

(** C10. On an arbitrary string the classifier returns the second tier
    unless the string is exactly Utilities, Productivity, Software or
    Fitness, in which case it returns the first tier; it always returns
    one of the two. *)
Theorem get_priority_total :
  forall category : string,
    (get_priority category = "1st Priority"
     \/ get_priority category = "2nd Priority")
    /\ (get_priority category = "1st Priority" <->
        (category = "Utilities" \/ category = "Productivity"
         \/ category = "Software" \/ category = "Fitness"))
    /\ (get_priority category = "2nd Priority" <->
        ~ (category = "Utilities" \/ category = "Productivity"
           \/ category = "Software" \/ category = "Fitness")).
Proof.
  intros category.
  destruct (get_priority_cases category) as [[Hin Hp] | [Hnin Hp]];
    rewrite Hp; rewrite In_essentials in *.
  - split; [now left |]. split; split; intros H;
      try reflexivity; try assumption; try discriminate; contradiction.
  - split; [now right |]. split; split; intros H;
      try reflexivity; try assumption; try discriminate; contradiction.
Qed.

Lemma get_priority_total_witness :
  get_priority "utilities" = "2nd Priority"
  /\ get_priority "Fitness" = "1st Priority".
Proof.
  split.
  - apply (proj2 (proj2 (get_priority_total "utilities"))).
    intros [H | [H | [H | H]]]; discriminate H.
  - apply (proj1 (proj2 (get_priority_total "Fitness"))).
    right; right; right; reflexivity.
Defined.

(* ===================================================================== *)
(** * The cost normaliser: theorems *)
(* ===================================================================== *)

Lemma normalize_cost_not_a_number (cost cycle : pyvalue) :
  not_a_number cost -> normalize_cost cost cycle = Ok F64.zero.
Proof.
  intros [e He]. unfold normalize_cost. rewrite He. reflexivity.
Qed.

Lemma normalize_cost_number (cost cycle : pyvalue) (x : float) :
  py_float cost = Ok x ->
  normalize_cost cost cycle =
  Ok (if py_eq_str cycle "Yearly" then F64.div x (F64.of_Z 12)
      else if py_eq_str cycle "Quarterly" then F64.div x (F64.of_Z 3)
      else x).
Proof.
  intros Hx. unfold normalize_cost. rewrite Hx. simpl.
  destruct (py_eq_str cycle "Yearly"); [reflexivity |].
  destruct (py_eq_str cycle "Quarterly"); reflexivity.
Qed.

Lemma py_float_cases (cost : pyvalue) :
  (exists x, py_float cost = Ok x) \/ not_a_number cost.
Proof.
  destruct (py_float cost) as [x | e] eqn:E.
  - left. now exists x.
  - right. now exists e.
Qed.

Lemma unrecognized_cycle (cycle : pyvalue) :
  recognized_cycle cycle = false ->
  py_eq_str cycle "Yearly" = false /\ py_eq_str cycle "Quarterly" = false.
Proof.
  unfold recognized_cycle, cycles. simpl.
  destruct (py_eq_str cycle "Monthly"), (py_eq_str cycle "Yearly"),
    (py_eq_str cycle "Quarterly"); simpl; intros H; try discriminate H.
  now split.
Qed.

(** C1, counterexample. The cost 5.0 billed on the unrecognised cycle
    Weekly comes back as 5.0, not as 0.0. *)
Lemma zero_on_bad_input_fails :
  recognized_cycle (PyStr "Weekly") = false
  /\ normalize_cost (PyFloat (F64.of_Z 5)) (PyStr "Weekly") = Ok (F64.of_Z 5)
  /\ F64.of_Z 5 <> F64.zero
  /\ ~ zero_on_bad_input.
Proof.
  split; [reflexivity |]. split; [reflexivity |]. split; [discriminate |].
  intros H.
  specialize (H (PyFloat (F64.of_Z 5)) (PyStr "Weekly")
                (or_intror eq_refl)).
  vm_compute in H. discriminate H.
Qed.

(** C1, amended. When the cost is not a number or the cycle is not a
    recognised one, the normaliser does not raise: it returns 0.0 if the
    cost is not a number, and otherwise the cost unchanged. *)
Theorem normalize_cost_bad_input :
  forall cost cycle : pyvalue,
    not_a_number cost \/ recognized_cycle cycle = false ->
    normalize_cost cost cycle =
    Ok (match py_float cost with
        | Ok x => x
        | Raise _ => F64.zero
        end).
Proof.
  intros cost cycle H.
  destruct (py_float cost) as [x | e] eqn:E.
  - destruct H as [[e He] | Hc]; [congruence |].
    rewrite (normalize_cost_number cost cycle x E).
    destruct (unrecognized_cycle cycle Hc) as [-> ->]. reflexivity.
  - apply normalize_cost_not_a_number. now exists e.
Qed.

Lemma normalize_cost_bad_input_witness :
  normalize_cost (PyStr "12,50") (PyStr "Yearly") = Ok F64.zero
  /\ normalize_cost (PyFloat (F64.of_Z 5)) (PyStr "Weekly") = Ok (F64.of_Z 5)
  /\ normalize_cost PyNone PyNone = Ok F64.zero.
Proof.
  split; [| split].
  - apply (normalize_cost_bad_input (PyStr "12,50") (PyStr "Yearly")).
    left. exists ValueError. reflexivity.
  - apply (normalize_cost_bad_input (PyFloat (F64.of_Z 5)) (PyStr "Weekly")).
    right. reflexivity.
  - apply (normalize_cost_bad_input PyNone PyNone).
    left. exists TypeError. reflexivity.
Defined.

(** C6. A numeric cost [x] is returned unchanged on the Monthly cycle,
    divided by 3 on the Quarterly cycle and divided by 12 on the Yearly
    cycle; 120 a year and 30 a quarter are both 10.0 a month, and the
    text "bad" on the Monthly cycle gives 0.0. *)
Theorem normalize_cost_arithmetic :
  (forall (cost : pyvalue) (x : float),
      py_float cost = Ok x ->
      normalize_cost cost (PyStr "Monthly") = Ok x
      /\ normalize_cost cost (PyStr "Quarterly") = Ok (F64.div x (F64.of_Z 3))
      /\ normalize_cost cost (PyStr "Yearly") = Ok (F64.div x (F64.of_Z 12)))
  /\ normalize_cost (PyInt 120) (PyStr "Yearly") = Ok (F64.of_Z 10)
  /\ normalize_cost (PyInt 30) (PyStr "Quarterly") = Ok (F64.of_Z 10)
  /\ normalize_cost (PyFloat (F64.of_Z 120)) (PyStr "Yearly") = Ok (F64.of_Z 10)
  /\ normalize_cost (PyFloat (F64.of_Z 30)) (PyStr "Quarterly") = Ok (F64.of_Z 10)
  /\ normalize_cost (PyStr "bad") (PyStr "Monthly") = Ok F64.zero.
Proof.
  split.
  - intros cost x Hx.
    repeat split; rewrite (normalize_cost_number _ _ x Hx); reflexivity.
  - repeat split; vm_compute; reflexivity.
Qed.

Lemma normalize_cost_arithmetic_witness :
  normalize_cost (PyStr "7.5") (PyStr "Monthly")
  = Ok (S754_finite false 8444249301319680 (-50))
  /\ normalize_cost (PyInt 36) (PyStr "Quarterly") = Ok (F64.of_Z 12).
Proof.
  split.
  - apply (proj1 normalize_cost_arithmetic (PyStr "7.5")). reflexivity.
  - apply (proj1 (proj2 (proj1 normalize_cost_arithmetic (PyInt 36) _ eq_refl))).
Defined.

(* ===================================================================== *)
(** * The categoriser: theorems *)
(* ===================================================================== *)

Lemma prefix_spec (k name : string) :
  String.prefix k name = true <-> exists b, name = k ++ b.
Proof.
  revert name. induction k as [| c k IH]; intros name.
  - destruct name; simpl; split; intros _; try reflexivity; eexists; reflexivity.
  - destruct name as [| d name]; simpl.
    + split; [discriminate | intros [b Hb]; discriminate Hb].
    + destruct (ascii_dec c d) as [-> | Hne].
      * rewrite IH. split; intros [b Hb]; exists b; congruence.
      * split; [discriminate |]. intros [b Hb]. congruence.
Qed.

Lemma contains_spec (name k : string) :
  Text.contains name k = true <-> occurs_in k name.
Proof.
  unfold occurs_in. induction name as [| c name IH].
  - change (Text.contains "" k) with (String.prefix k "" || false).
    rewrite orb_false_r, prefix_spec. split.
    + intros [b Hb]. exists "", b. exact Hb.
    + intros [a [b Hab]]. destruct a; simpl in Hab; [now exists b |].
      discriminate Hab.
  - change (Text.contains (String c name) k)
      with (String.prefix k (String c name) || Text.contains name k).
    rewrite orb_true_iff, prefix_spec, IH. split.
    + intros [[b Hb] | [a [b Hab]]].
      * exists "", b. exact Hb.
      * exists (String c a), b. simpl. now rewrite Hab.
    + intros [a [b Hab]]. destruct a as [| d a]; simpl in Hab.
      * left. now exists b.
      * right. exists a, b. congruence.
Qed.

Lemma any_key_in_spec (name : string) (keys : list string) :
  any_key_in name keys = true <-> has_keyword name keys.
Proof.
  unfold any_key_in, has_keyword. rewrite existsb_exists.
  split; intros [k [Hin Hk]]; exists k; split; try assumption;
    now apply contains_spec.
Qed.

Lemma suggest_loop_first (name : string) :
  forall (pre : list (string * list string)) (category : string)
         (keys : list string) (post : list (string * list string)),
    (forall c ks, In (c, ks) pre -> ~ has_keyword name ks) ->
    has_keyword name keys ->
    suggest_loop name (pre ++ (category, keys) :: post) = category.
Proof.
  induction pre as [| [c ks] pre IH]; intros category keys post Hpre Hkeys.
  - simpl. apply any_key_in_spec in Hkeys. now rewrite Hkeys.
  - simpl. destruct (any_key_in name ks) eqn:E.
    + exfalso. apply (Hpre c ks); [now left | now apply any_key_in_spec].
    + apply IH; [| assumption].
      intros c' ks' Hin. apply (Hpre c'). now right.
Qed.

Lemma suggest_loop_none (name : string) :
  forall items : list (string * list string),
    (forall c ks, In (c, ks) items -> ~ has_keyword name ks) ->
    suggest_loop name items = "Uncategorized".
Proof.
  induction items as [| [c ks] items IH]; intros Hnone; [reflexivity |].
  simpl. destruct (any_key_in name ks) eqn:E.
  - exfalso. apply (Hnone c ks); [now left | now apply any_key_in_spec].
  - apply IH. intros c' ks' Hin. apply (Hnone c'). now right.
Qed.

(** Either some category has a keyword in [name], and then there is a
    first one, or none has. *)
Lemma first_category_or_none (name : string) :
  forall items : list (string * list string),
    (exists pre category keys post,
        items = (pre ++ (category, keys) :: post)%list
        /\ (forall c ks, In (c, ks) pre -> ~ has_keyword name ks)
        /\ has_keyword name keys)
    \/ (forall c ks, In (c, ks) items -> ~ has_keyword name ks).
Proof.
  induction items as [| [c ks] items IH].
  - right. intros c ks [].
  - destruct (any_key_in name ks) eqn:E.
    + left. exists [], c, ks, items. split; [reflexivity |]. split.
      * intros c' ks' [].
      * now apply any_key_in_spec.
    + assert (Hks : ~ has_keyword name ks).
      { intros H. apply any_key_in_spec in H. congruence. }
      destruct IH as [[pre [category [keys [post [Heq [Hpre Hk]]]]]] | Hnone].
      * left. exists ((c, ks) :: pre), category, keys, post.
        split; [simpl; now rewrite Heq |]. split; [| assumption].
        intros c' ks' [Hin | Hin]; [| now apply (Hpre c')].
        injection Hin as <- <-. assumption.
      * right. intros c' ks' [Hin | Hin]; [| now apply (Hnone c')].
        injection Hin as <- <-. assumption.
Qed.

(** C3. The categories are tried in the order Entertainment, Music,
    Productivity, Utilities, Software, Fitness, Shopping; the result is
    the first category one of whose keywords occurs in the lower-cased
    name, and Uncategorized when no keyword occurs; every name falls in
    one of the two cases. Netflix and Amazon Prime are Entertainment,
    Random Startup Tool is Uncategorized. *)
Theorem suggest_category_first_match :
  List.map fst keywords = category_order
  /\ (forall (name : string) pre category keys post,
         keywords = (pre ++ (category, keys) :: post)%list ->
         (forall c ks, In (c, ks) pre -> ~ has_keyword (Text.lower name) ks) ->
         has_keyword (Text.lower name) keys ->
         suggest_category name = category)
  /\ (forall name : string,
         (forall c ks, In (c, ks) keywords ->
                       ~ has_keyword (Text.lower name) ks) ->
         suggest_category name = "Uncategorized")
  /\ (forall name : string,
         (exists pre category keys post,
             keywords = (pre ++ (category, keys) :: post)%list
             /\ (forall c ks, In (c, ks) pre ->
                              ~ has_keyword (Text.lower name) ks)
             /\ has_keyword (Text.lower name) keys)
         \/ (forall c ks, In (c, ks) keywords ->
                          ~ has_keyword (Text.lower name) ks))
  /\ suggest_category "Netflix" = "Entertainment"
  /\ suggest_category "Amazon Prime" = "Entertainment"
  /\ suggest_category "Random Startup Tool" = "Uncategorized".
Proof.
  split; [reflexivity |].
  split.
  { intros name pre category keys post Heq Hpre Hkeys.
    unfold suggest_category. rewrite Heq.
    now apply suggest_loop_first. }
  split.
  { intros name Hnone. unfold suggest_category.
    now apply suggest_loop_none. }
  split.
  { intros name. apply first_category_or_none. }
  repeat split; vm_compute; reflexivity.
Qed.

Lemma suggest_category_first_match_witness :
  suggest_category "Spotify Family" = "Music"
  /\ suggest_category "Parking" = "Uncategorized".
Proof.
  split.
  - apply (proj1 (proj2 suggest_category_first_match) "Spotify Family"
             [("Entertainment",
               ["netflix"; "hulu"; "disney"; "hbo"; "prime"; "cinema";
                "youtube"; "tv"])]
             "Music"
             ["spotify"; "apple music"; "tidal"; "deezer"; "pandora";
              "music"; "sound"]
             (List.tl (List.tl keywords))).
    + reflexivity.
    + intros c ks [Hin | []] H. injection Hin as <- <-.
      apply any_key_in_spec in H. vm_compute in H. discriminate H.
    + apply any_key_in_spec. vm_compute. reflexivity.
  - apply (proj1 (proj2 (proj2 suggest_category_first_match)) "Parking").
    intros c ks Hin H. apply any_key_in_spec in H.
    unfold keywords in Hin. simpl in Hin.
    repeat destruct Hin as [Hin | Hin]; try contradiction;
      injection Hin as <- <-; vm_compute in H; discriminate H.
Defined.

(* ===================================================================== *)
(** * The insights engine: the shape of a pass *)
(* ===================================================================== *)

Lemma of_type_app (t : string) (l1 l2 : list insight) :
  of_type t (l1 ++ l2)%list = (of_type t l1 ++ of_type t l2)%list.
Proof. apply filter_app. Qed.

Lemma of_type_all (t : string) (l : list insight) :
  Forall (fun i => type i = t) l -> of_type t l = l.
Proof.
  induction 1 as [| i l Hi _ IH]; [reflexivity |].
  unfold of_type in *. simpl. rewrite Hi, String.eqb_refl. now f_equal.
Qed.

Lemma of_type_none (t : string) (l : list insight) :
  Forall (fun i => type i <> t) l -> of_type t l = [].
Proof.
  induction 1 as [| i l Hi _ IH]; [reflexivity |].
  unfold of_type in *. simpl.
  destruct (String.eqb_spec (type i) t); [contradiction | assumption].
Qed.

Lemma rows_of_rows (records : list subscription) :
  Frame.rows (Frame.of_rows records) = records.
Proof.
  unfold Frame.rows, Frame.of_rows.
  generalize 0%nat. induction records as [| r records IH]; intros n.
  - reflexivity.
  - simpl. now rewrite IH.
Qed.

Lemma labels_of_rows (records : list subscription) :
  List.map fst (Frame.of_rows records) = seq 0 (List.length records).
Proof.
  unfold Frame.of_rows.
  generalize 0%nat. induction records as [| r records IH]; intros n.
  - reflexivity.
  - simpl. now rewrite IH.
Qed.

Lemma empty_of_rows (records : list subscription) :
  Frame.empty (Frame.of_rows records) = true <-> records = [].
Proof.
  destruct records; simpl; split; intros H; try reflexivity; discriminate H.
Qed.

Lemma for_each_append {A B : Type} (f : A -> B) (l : list A) (acc : list B) :
  for_each (fun insights a => ret (append insights (f a))) l acc
  = Ok (acc ++ List.map f l)%list.
Proof.
  revert acc. induction l as [| a l IH]; intros acc; simpl.
  - now rewrite app_nil_r.
  - rewrite IH. unfold append. now rewrite <- app_assoc.
Qed.

Section Shape.

Variable float_str : float -> string.
Variable today : date.

Lemma renewal_body_of (insights : list insight) (row : subscription) :
  renewal_body float_str today insights row
  = Ok (insights ++ renewal_of float_str today row)%list.
Proof.
  unfold renewal_body, renewal_of.
  destruct (Date.strptime (Renewal_Date row)) as [d | e]; simpl.
  - destruct ((0 <=? Date.days_between d today)
              && (Date.days_between d today <=? 2)); simpl.
    + reflexivity.
    + now rewrite app_nil_r.
  - now rewrite app_nil_r.
Qed.

Lemma renewal_loop (rows : list subscription) (insights : list insight) :
  for_each (renewal_body float_str today) rows insights
  = Ok (insights ++ flat_map (renewal_of float_str today) rows)%list.
Proof.
  revert insights. induction rows as [| r rows IH]; intros insights; simpl.
  - now rewrite app_nil_r.
  - rewrite renewal_body_of. simpl. rewrite IH. now rewrite <- app_assoc.
Qed.

Lemma renewal_of_type (row : subscription) :
  Forall (fun i => type i = "Critical") (renewal_of float_str today row).
Proof.
  unfold renewal_of.
  destruct (Date.strptime (Renewal_Date row)) as [d | e]; [| constructor].
  destruct ((0 <=? Date.days_between d today)
            && (Date.days_between d today <=? 2)); repeat constructor.
Qed.

Lemma renewals_type (rows : list subscription) :
  Forall (fun i => type i = "Critical") (flat_map (renewal_of float_str today) rows).
Proof.
  induction rows as [| r rows IH]; simpl; [constructor |].
  apply Forall_app. split; [apply renewal_of_type | exact IH].
Qed.

(** Part B never raises, adds nothing or one Suggestion, and what it adds
    does not depend on what was gathered before. *)
Lemma suggestion_part_adds (df : frame) :
  exists added : list insight,
    (forall insights,
        suggestion_part float_str df insights = Ok (insights ++ added)%list)
    /\ (added = []
        \/ exists most_expensive, added = [suggestion_insight float_str most_expensive]).
Proof.
  unfold suggestion_part.
  set (lifestyle_subs := Frame.select _ df).
  destruct (Frame.empty lifestyle_subs); simpl.
  - exists []. split; [| now left].
    intros insights. now rewrite app_nil_r.
  - destruct (Frame.idxmax_Cost lifestyle_subs) as [label | e]; simpl.
    + destruct (Frame.loc lifestyle_subs label) as [r | e]; simpl.
      * exists [suggestion_insight float_str r]. split; [reflexivity |].
        right. now exists r.
      * exists []. split; [| now left].
        intros insights. now rewrite app_nil_r.
    + exists []. split; [| now left].
      intros insights. now rewrite app_nil_r.
Qed.

Lemma duplicate_part_adds (records : list subscription)
      (insights : list insight) :
  duplicate_part (Frame.of_rows records) insights
  = Ok (insights ++ List.map duplicate_insight (duplicate_names records))%list.
Proof.
  unfold duplicate_part, duplicate_names.
  destruct (Frame.duplicated_Name (Frame.of_rows records)) as [| lr dups] eqn:E.
  - simpl. now rewrite app_nil_r.
  - cbv beta iota delta [Frame.empty negb]. apply for_each_append.
Qed.

(** One pass: the renewal alerts of every row in order, then what part B
    adds, then one warning per duplicated name. *)
Lemma generate_insights_parts (records : list subscription) :
  exists added : list insight,
    (forall insights,
        suggestion_part float_str (Frame.of_rows records) insights
        = Ok (insights ++ added)%list)
    /\ (added = []
        \/ exists most_expensive,
             added = [suggestion_insight float_str most_expensive])
    /\ generate_insights float_str today records
       = Ok (flat_map (renewal_of float_str today) records ++ added
             ++ List.map duplicate_insight (duplicate_names records))%list.
Proof.
  destruct (suggestion_part_adds (Frame.of_rows records))
    as [added [Hadd Hshape]].
  exists added. split; [exact Hadd |]. split; [exact Hshape |].
  unfold generate_insights.
  destruct records as [| r records].
  - simpl. specialize (Hadd []). simpl in Hadd.
    unfold suggestion_part in Hadd. simpl in Hadd.
    injection Hadd as <-. reflexivity.
  - remember (r :: records) as rs.
    assert (Hne : Frame.empty (Frame.of_rows rs) = false).
    { subst rs. reflexivity. }
    rewrite Hne. rewrite rows_of_rows, renewal_loop. simpl.
    rewrite Hadd. simpl. rewrite duplicate_part_adds. simpl.
    now rewrite <- app_assoc.
Qed.

End Shape.

(* ===================================================================== *)
(** * Renewal alerts and robustness: theorems *)
(* ===================================================================== *)

Lemma renewal_of_rule (float_str : float -> string) (today : date)
      (r : subscription) :
  renewal_rule float_str today r (renewal_of float_str today r).
Proof.
  unfold renewal_rule, renewal_of.
  destruct (Date.strptime (Renewal_Date r)) as [d | e]; [| reflexivity].
  cbv zeta.
  destruct (Z.leb_spec 0 (Date.days_between d today));
    destruct (Z.leb_spec (Date.days_between d today) 2); simpl;
    split; intros Hrange; try reflexivity; lia.
Qed.

Lemma critical_part (float_str : float -> string) (today : date)
      (records : list subscription) (added : list insight)
      (names : list string) :
  (added = [] \/ exists r, added = [suggestion_insight float_str r]) ->
  of_type "Critical"
    (flat_map (renewal_of float_str today) records ++ added
     ++ List.map duplicate_insight names)%list
  = flat_map (renewal_of float_str today) records.
Proof.
  intros Hadded. rewrite !of_type_app.
  rewrite (of_type_all _ _ (renewals_type float_str today records)).
  rewrite (of_type_none "Critical" added).
  - rewrite (of_type_none "Critical" (List.map duplicate_insight names)).
    + now rewrite app_nil_r.
    + apply Forall_map, Forall_forall. intros n _. discriminate.
  - destruct Hadded as [-> | [r ->]]; repeat constructor. discriminate.
Qed.

(** C2. The Critical insights of a pass are, record by record and in
    input order, what the rule of the renewal detector prescribes: one
    insight for a record whose date parses and lies 0, 1 or 2 days ahead,
    none for a record whose date parses and lies further ahead or in the
    past, none for a record whose date does not parse; the pass does not
    raise. On 2024-01-10 a renewal on 2024-01-12 gives one insight, on
    2024-01-13 none, on 2024-01-09 none. *)
Theorem renewal_alerts_exact :
  (forall (float_str : float -> string) (today : date)
          (records : list subscription),
      exists (out : list insight) (per_record : list (list insight)),
        generate_insights float_str today records = Ok out
        /\ of_type "Critical" out = List.concat per_record
        /\ Forall2 (renewal_rule float_str today) records per_record)
  /\ (forall (float_str : float -> string) name cost cycle category,
         let today := Date.mkdate 2024 1 10 in
         let on day := mksub name cost cycle category day in
         (exists out,
             generate_insights float_str today [on "2024-01-12"] = Ok out
             /\ of_type "Critical" out
                = [renewal_insight float_str (on "2024-01-12") 2])
         /\ (exists out,
                generate_insights float_str today [on "2024-01-13"] = Ok out
                /\ of_type "Critical" out = [])
         /\ (exists out,
                generate_insights float_str today [on "2024-01-09"] = Ok out
                /\ of_type "Critical" out = [])).
Proof.
  assert (Hgen : forall float_str today records,
             exists out,
               generate_insights float_str today records = Ok out
               /\ of_type "Critical" out
                  = flat_map (renewal_of float_str today) records).
  { intros float_str today records.
    destruct (generate_insights_parts float_str today records)
      as [added [_ [Hshape Hout]]].
    eexists. split; [exact Hout |]. now apply critical_part. }
  split.
  - intros float_str today records.
    destruct (Hgen float_str today records) as [out [Hout Hcrit]].
    exists out, (List.map (renewal_of float_str today) records).
    split; [exact Hout |]. split.
    + rewrite Hcrit. apply flat_map_concat_map.
    + clear. induction records as [| r records IH]; constructor.
      * apply renewal_of_rule.
      * exact IH.
  - intros float_str name cost cycle category today on. split; [| split].
    + destruct (Hgen float_str today [on "2024-01-12"]) as [out [Hout Hcrit]].
      exists out. split; [exact Hout |]. rewrite Hcrit. reflexivity.
    + destruct (Hgen float_str today [on "2024-01-13"]) as [out [Hout Hcrit]].
      exists out. split; [exact Hout |]. rewrite Hcrit. reflexivity.
    + destruct (Hgen float_str today [on "2024-01-09"]) as [out [Hout Hcrit]].
      exists out. split; [exact Hout |]. rewrite Hcrit. reflexivity.
Qed.

Lemma flat_map_skip {A B : Type} (f : A -> list B) (pre post : list A) (a : A) :
  f a = [] ->
  flat_map f (pre ++ a :: post) = flat_map f (pre ++ post).
Proof.
  intros Ha. rewrite !flat_map_app. simpl. now rewrite Ha.
Qed.

(** C8. On the empty collection the pass returns the empty list. On
    every collection the pass returns a list and does not raise. A record
    whose date does not parse is left out of the renewal alerts, which
    are those of the collection without it, while the suggestion and the
    duplicate detectors still run over the whole collection, the record
    included, and contribute what they produce on their own. *)
Theorem generate_insights_robust :
  forall (float_str : float -> string) (today : date),
    generate_insights float_str today [] = Ok []
    /\ (forall records, returns (generate_insights float_str today records))
    /\ (forall pre r post,
           not_a_date (Renewal_Date r) ->
           exists alerts suggestion warnings,
             generate_insights float_str today (pre ++ r :: post)
             = Ok (alerts ++ suggestion ++ warnings)%list
             /\ for_each (renewal_body float_str today) (pre ++ post) []
                = Ok alerts
             /\ suggestion_part float_str
                  (Frame.of_rows (pre ++ r :: post)) [] = Ok suggestion
             /\ duplicate_part (Frame.of_rows (pre ++ r :: post)) []
                = Ok warnings).
Proof.
  intros float_str today. split; [reflexivity |]. split.
  - intros records.
    destruct (generate_insights_parts float_str today records)
      as [added [_ [_ Hout]]].
    eexists. exact Hout.
  - intros pre r post [e He].
    destruct (generate_insights_parts float_str today (pre ++ r :: post))
      as [added [Hadd [_ Hout]]].
    exists (flat_map (renewal_of float_str today) (pre ++ post)), added,
      (List.map duplicate_insight (duplicate_names (pre ++ r :: post))).
    split; [| split; [| split]].
    + rewrite Hout. f_equal. f_equal.
      apply flat_map_skip. unfold renewal_of. now rewrite He.
    + apply renewal_loop.
    + apply Hadd.
    + apply duplicate_part_adds.
Qed.

Lemma generate_insights_robust_witness :
  exists alerts suggestion warnings,
    generate_insights sample_float_str (Date.mkdate 2024 1 10)
      ([sub "A" 5 "Music" "2024-01-12"]
         ++ sub "B" 40 "Shopping" "bad"
         :: [sub "A" 12 "Utilities" "2024-01-13"])
    = Ok (alerts ++ suggestion ++ warnings)%list
    /\ for_each (renewal_body sample_float_str (Date.mkdate 2024 1 10))
         ([sub "A" 5 "Music" "2024-01-12"]
            ++ [sub "A" 12 "Utilities" "2024-01-13"]) []
       = Ok alerts
    /\ suggestion_part sample_float_str
         (Frame.of_rows
            ([sub "A" 5 "Music" "2024-01-12"]
               ++ sub "B" 40 "Shopping" "bad"
               :: [sub "A" 12 "Utilities" "2024-01-13"])) []
       = Ok suggestion
    /\ duplicate_part
         (Frame.of_rows
            ([sub "A" 5 "Music" "2024-01-12"]
               ++ sub "B" 40 "Shopping" "bad"
               :: [sub "A" 12 "Utilities" "2024-01-13"])) []
       = Ok warnings.
Proof.
  apply (proj2 (proj2
           (generate_insights_robust sample_float_str (Date.mkdate 2024 1 10)))).
  exists ValueError. reflexivity.
Defined.

(* ===================================================================== *)
(** * Duplicate detection: theorems *)
(* ===================================================================== *)

Lemma rows_select (p : subscription -> bool) (df : frame) :
  Frame.rows (Frame.select p df) = List.filter p (Frame.rows df).
Proof.
  unfold Frame.rows, Frame.select.
  induction df as [| [label r] df IH]; [reflexivity |].
  simpl. destruct (p r); simpl; now rewrite IH.
Qed.

Lemma map_filter_Name (q : string -> bool) (records : list subscription) :
  List.map Name (List.filter (fun r => q (Name r)) records)
  = List.filter q (List.map Name records).
Proof.
  induction records as [| r records IH]; [reflexivity |].
  simpl. destruct (q (Name r)); simpl; now rewrite IH.
Qed.

Lemma duplicate_names_among (records : list subscription) :
  duplicate_names records = duplicated_among (List.map Name records).
Proof.
  unfold duplicate_names, duplicated_among, Frame.duplicated_Name.
  rewrite rows_select, rows_of_rows.
  now rewrite (map_filter_Name
                 (fun n => Nat.ltb 1 (Frame.count n (List.map Name records)))).
Qed.

Lemma count_count_occ (x : string) (l : list string) :
  Frame.count x l = count_occ string_dec l x.
Proof.
  unfold Frame.count. induction l as [| y l IH]; [reflexivity |].
  simpl. destruct (String.eqb_spec x y) as [Hxy | Hxy];
    destruct (string_dec y x) as [Hyx | Hyx]; simpl;
    try congruence; now rewrite IH.
Qed.

Lemma unique_from_In (l seen : list string) (y : string) :
  In y (Frame.unique_from seen l) <-> In y l /\ ~ In y seen.
Proof.
  revert seen. induction l as [| x l IH]; intros seen; simpl.
  - tauto.
  - destruct (py_in x seen) eqn:E.
    + apply py_in_In in E. rewrite IH. split.
      * intros [Hl Hs]. tauto.
      * intros [[-> | Hl] Hs]; [contradiction | tauto].
    + assert (Hx : ~ In x seen).
      { intros H. apply py_in_In in H. congruence. }
      simpl. rewrite IH. simpl.
      destruct (string_dec x y) as [-> | Hne]; tauto.
Qed.

Lemma unique_from_NoDup (l seen : list string) :
  NoDup (Frame.unique_from seen l).
Proof.
  revert seen. induction l as [| x l IH]; intros seen; simpl.
  - constructor.
  - destruct (py_in x seen); [apply IH |].
    constructor; [| apply IH].
    rewrite unique_from_In. simpl. tauto.
Qed.

Lemma first_index_skip (x : string) (pre l : list string) :
  ~ In x pre ->
  first_index x (pre ++ l) = (List.length pre + first_index x l)%nat.
Proof.
  induction pre as [| y pre IH]; intros Hx; [reflexivity |].
  simpl. destruct (String.eqb_spec y x) as [-> | Hne].
  - exfalso. apply Hx. now left.
  - rewrite IH; [reflexivity |]. intros H. apply Hx. now right.
Qed.

Lemma unique_from_sorted (l pre seen : list string) :
  (forall x, In x seen <-> In x pre) ->
  StronglySorted (appears_first (pre ++ l)) (Frame.unique_from seen l).
Proof.
  revert pre seen. induction l as [| x l IH]; intros pre seen Hseen; simpl.
  - constructor.
  - assert (Hshift : (pre ++ x :: l = (pre ++ [x]) ++ l)%list).
    { now rewrite <- app_assoc. }
    destruct (py_in x seen) eqn:E.
    + apply py_in_In in E. rewrite Hshift. apply IH.
      intros z. rewrite in_app_iff, <- Hseen. simpl.
      split; [tauto |]. intros [H | [<- | []]]; assumption.
    + assert (Hx : ~ In x seen).
      { intros H. apply py_in_In in H. congruence. }
      constructor.
      * rewrite Hshift. apply IH.
        intros z. rewrite in_app_iff, <- Hseen. simpl. tauto.
      * apply Forall_forall. intros y Hy.
        apply unique_from_In in Hy. destruct Hy as [Hyl Hys].
        simpl in Hys. unfold appears_first.
        rewrite !first_index_skip by (rewrite <- Hseen; tauto).
        simpl. rewrite String.eqb_refl.
        destruct (String.eqb_spec x y) as [-> | Hne]; [tauto | lia].
Qed.

Lemma first_index_filter (q : string -> bool) (names : list string)
      (a b : string) :
  q a = true -> q b = true ->
  appears_first (List.filter q names) a b -> appears_first names a b.
Proof.
  unfold appears_first. intros Ha Hb.
  induction names as [| z names IH]; simpl; [lia |].
  destruct (q z) eqn:Hz; simpl.
  - destruct (String.eqb_spec z a), (String.eqb_spec z b); lia.
  - destruct (String.eqb_spec z a) as [-> | _]; [congruence |].
    destruct (String.eqb_spec z b) as [-> | _]; [congruence |].
    lia.
Qed.

Lemma StronglySorted_weaken {A : Type} (R R' : A -> A -> Prop) (l : list A) :
  (forall a b, In a l -> In b l -> R a b -> R' a b) ->
  StronglySorted R l -> StronglySorted R' l.
Proof.
  intros Himp Hs. induction Hs as [| a l Hs IH Hall]; constructor.
  - apply IH. intros x y Hx Hy. apply Himp; now right.
  - rewrite Forall_forall in *. intros y Hy.
    apply Himp; [now left | now right | now apply Hall].
Qed.

(** What [duplicated_among] computes: each name that appears more than
    once, once, in order of first appearance. *)
Lemma duplicated_among_spec (names : list string) :
  NoDup (duplicated_among names)
  /\ (forall n, In n (duplicated_among names) <->
                (1 < count_occ string_dec names n)%nat)
  /\ StronglySorted (appears_first names) (duplicated_among names).
Proof.
  unfold duplicated_among, Frame.unique.
  set (q := fun n => Nat.ltb 1 (Frame.count n names)).
  assert (Hin : forall n, In n (Frame.unique_from [] (List.filter q names))
                          <-> (1 < count_occ string_dec names n)%nat).
  { intros n. rewrite unique_from_In, filter_In. unfold q.
    rewrite Nat.ltb_lt, count_count_occ. split.
    - tauto.
    - intros H. split; [| intros []]. split; [| assumption].
      apply (count_occ_In string_dec). lia. }
  split; [apply unique_from_NoDup |]. split; [exact Hin |].
  apply (StronglySorted_weaken (appears_first (List.filter q names))).
  - intros a b Ha Hb. apply first_index_filter.
    + apply Hin in Ha. unfold q. rewrite count_count_occ. now apply Nat.ltb_lt.
    + apply Hin in Hb. unfold q. rewrite count_count_occ. now apply Nat.ltb_lt.
  - apply (unique_from_sorted (List.filter q names) [] []). tauto.
Qed.

Lemma warning_part (float_str : float -> string) (today : date)
      (records : list subscription) (added : list insight)
      (names : list string) :
  (added = [] \/ exists r, added = [suggestion_insight float_str r]) ->
  of_type "Warning"
    (flat_map (renewal_of float_str today) records ++ added
     ++ List.map duplicate_insight names)%list
  = List.map duplicate_insight names.
Proof.
  intros Hadded. rewrite !of_type_app.
  rewrite (of_type_none "Warning" (flat_map _ records)).
  - rewrite (of_type_none "Warning" added).
    + apply of_type_all, Forall_map, Forall_forall. reflexivity.
    + destruct Hadded as [-> | [r ->]]; repeat constructor. discriminate.
  - eapply Forall_impl; [| apply renewals_type].
    intros i Hi. rewrite Hi. discriminate.
Qed.

Lemma generate_insights_warnings (float_str : float -> string) (today : date)
      (records : list subscription) :
  exists out,
    generate_insights float_str today records = Ok out
    /\ of_type "Warning" out
       = List.map duplicate_insight (duplicated_among (List.map Name records)).
Proof.
  destruct (generate_insights_parts float_str today records)
    as [added [_ [Hshape Hout]]].
  eexists. split; [exact Hout |].
  rewrite <- duplicate_names_among. now apply warning_part.
Qed.

Lemma length_append (a b : string) :
  String.length (a ++ b) = (String.length a + String.length b)%nat.
Proof.
  induction a as [| c a IH]; simpl; [reflexivity | now rewrite IH].
Qed.

Lemma append_cancel_r (a b s : string) : a ++ s = b ++ s -> a = b.
Proof.
  revert b. induction a as [| c a IH]; intros b H.
  - destruct b as [| d b]; [reflexivity |].
    apply (f_equal String.length) in H. simpl in H.
    rewrite length_append in H. lia.
  - destruct b as [| d b].
    + apply (f_equal String.length) in H. simpl in H.
      rewrite length_append in H. lia.
    + simpl in H. injection H as -> H. f_equal. now apply IH.
Qed.

Lemma duplicate_insight_inj (a b : string) :
  duplicate_insight a = duplicate_insight b -> a = b.
Proof.
  unfold duplicate_insight. intros H. injection H as H.
  apply (append_cancel_r a b "'."). 
  repeat (simpl in H; injection H as H). exact H.
Qed.

(** C5. The Warning insights of a pass are one insight per name that is
    borne, letter for letter, by more than one record: the warned names
    are pairwise distinct, a name is among them exactly when it appears
    more than once, they come in order of first appearance, and distinct
    names give distinct insights. Names A, B, A, A give one Warning, for
    A; names that differ only in case give none. *)
Theorem duplicate_warnings_exact :
  (forall (float_str : float -> string) (today : date)
          (records : list subscription),
      exists (out : list insight) (warned : list string),
        generate_insights float_str today records = Ok out
        /\ of_type "Warning" out = List.map duplicate_insight warned
        /\ NoDup warned
        /\ (forall n, In n warned <->
                      (1 < count_occ string_dec (List.map Name records) n)%nat)
        /\ StronglySorted (appears_first (List.map Name records)) warned)
  /\ (forall a b, duplicate_insight a = duplicate_insight b -> a = b)
  /\ (forall (float_str : float -> string) (today : date)
             (records : list subscription),
         List.map Name records = ["A"; "B"; "A"; "A"] ->
         exists out,
           generate_insights float_str today records = Ok out
           /\ of_type "Warning" out = [duplicate_insight "A"])
  /\ (forall (float_str : float -> string) (today : date)
             (records : list subscription),
         List.map Name records = ["Netflix"; "netflix"; "Netflix "] ->
         exists out,
           generate_insights float_str today records = Ok out
           /\ of_type "Warning" out = []).
Proof.
  split; [| split; [| split]].
  - intros float_str today records.
    destruct (generate_insights_warnings float_str today records)
      as [out [Hout Hw]].
    exists out, (duplicated_among (List.map Name records)).
    destruct (duplicated_among_spec (List.map Name records))
      as [Hnodup [Hin Hsorted]].
    repeat split; try assumption; now apply Hin.
  - exact duplicate_insight_inj.
  - intros float_str today records Hnames.
    destruct (generate_insights_warnings float_str today records)
      as [out [Hout Hw]].
    exists out. split; [exact Hout |]. rewrite Hw, Hnames. reflexivity.
  - intros float_str today records Hnames.
    destruct (generate_insights_warnings float_str today records)
      as [out [Hout Hw]].
    exists out. split; [exact Hout |]. rewrite Hw, Hnames. reflexivity.
Qed.

Lemma duplicate_warnings_exact_witness :
  exists out,
    generate_insights sample_float_str (Date.mkdate 2024 1 10)
      [ sub "A" 5 "Music" "2024-01-12"; sub "B" 40 "Shopping" "bad";
        sub "A" 12 "Utilities" "2024-01-13"; sub "A" 1 "Music" "" ]
    = Ok out
    /\ of_type "Warning" out = [duplicate_insight "A"].
Proof.
  apply (proj1 (proj2 (proj2 duplicate_warnings_exact))).
  reflexivity.
Defined.

(* ===================================================================== *)
(** * The order of binary64 numbers *)
(* ===================================================================== *)

Module F64Order.

Ltac order_cases :=
  repeat match goal with
         | |- context [Z.compare ?a ?b] => destruct (Z.compare_spec a b)
         | |- context [Pos.compare_cont Eq ?a ?b] =>
             change (Pos.compare_cont Eq a b) with (Pos.compare a b);
             destruct (Pos.compare_spec a b)
         end.

Lemma ltb_key (x y : float) :
  number x -> number y ->
  (F64.ltb x y = true <-> lex_lt (key x) (key y)).
Proof.
  unfold number, F64.ltb, SFltb.
  destruct x as [sx | sx | | sx mx ex], y as [sy | sy | | sy my ey];
    simpl; intros Hx Hy; try discriminate;
    try destruct sx; try destruct sy; simpl; order_cases; simpl;
    split; intros Hcmp; try reflexivity; try discriminate; lia.
Qed.

Lemma leb_key (x y : float) :
  number x -> number y ->
  (F64.leb x y = true <-> ~ lex_lt (key y) (key x)).
Proof.
  unfold number, F64.leb, SFleb.
  destruct x as [sx | sx | | sx mx ex], y as [sy | sy | | sy my ey];
    simpl; intros Hx Hy; try discriminate;
    try destruct sx; try destruct sy; simpl; order_cases; simpl;
    split; intros Hcmp; try reflexivity; try discriminate; lia.
Qed.

Lemma eqb_key (x y : float) :
  number x -> number y ->
  (F64.eqb x y = true <->
   ~ lex_lt (key x) (key y) /\ ~ lex_lt (key y) (key x)).
Proof.
  unfold number, F64.eqb, SFeqb.
  destruct x as [sx | sx | | sx mx ex], y as [sy | sy | | sy my ey];
    simpl; intros Hx Hy; try discriminate;
    try destruct sx; try destruct sy; simpl; order_cases; simpl;
    split; intros Hcmp; try reflexivity; try discriminate; lia.
Qed.

Ltac to_keys :=
  repeat match goal with
         | H : F64.ltb ?x ?y = true |- _ => apply ltb_key in H; [| assumption ..]
         | H : F64.leb ?x ?y = true |- _ => apply leb_key in H; [| assumption ..]
         | H : F64.eqb ?x ?y = true |- _ => apply eqb_key in H; [| assumption ..]
         | |- F64.ltb ?x ?y = true => apply ltb_key; [assumption .. |]
         | |- F64.leb ?x ?y = true => apply leb_key; [assumption .. |]
         | |- F64.eqb ?x ?y = true => apply eqb_key; [assumption .. |]
         end;
  repeat match goal with
         | |- context [key ?x] =>
             let a := fresh "a" in let b := fresh "b" in let c := fresh "c" in
             destruct (key x) as [[a b] c]
         | H : context [key ?x] |- _ =>
             let a := fresh "a" in let b := fresh "b" in let c := fresh "c" in
             destruct (key x) as [[a b] c]
         end;
  unfold lex_lt in *.

Lemma not_ltb_leb (x y : float) :
  number x -> number y -> F64.ltb x y = false -> F64.leb y x = true.
Proof.
  intros Hx Hy H.
  assert (Hn : ~ lex_lt (key x) (key y)).
  { intros Hk. apply ltb_key in Hk; [congruence | assumption ..]. }
  apply leb_key; assumption.
Qed.

Lemma leb_refl (x : float) : number x -> F64.leb x x = true.
Proof. intros Hx. to_keys. lia. Qed.

Lemma ltb_leb (x y : float) :
  number x -> number y -> F64.ltb x y = true -> F64.leb x y = true.
Proof. intros Hx Hy H. to_keys. lia. Qed.

Lemma leb_trans (x y z : float) :
  number x -> number y -> number z ->
  F64.leb x y = true -> F64.leb y z = true -> F64.leb x z = true.
Proof. intros Hx Hy Hz H1 H2. to_keys. lia. Qed.

Lemma leb_ltb_trans (x y z : float) :
  number x -> number y -> number z ->
  F64.leb x y = true -> F64.ltb y z = true -> F64.ltb x z = true.
Proof. intros Hx Hy Hz H1 H2. to_keys. lia. Qed.

Lemma ltb_trans (x y z : float) :
  number x -> number y -> number z ->
  F64.ltb x y = true -> F64.ltb y z = true -> F64.ltb x z = true.
Proof. intros Hx Hy Hz H1 H2. to_keys. lia. Qed.

Lemma ltb_not_leb (x y : float) :
  number x -> number y ->
  F64.ltb x y = true -> F64.leb y x = true -> False.
Proof. intros Hx Hy H1 H2. to_keys. lia. Qed.

(** Below or equal, and not equal, is strictly below. *)
Lemma leb_neq_ltb (x y : float) :
  number x -> number y ->
  F64.leb x y = true -> F64.eqb x y = false -> F64.ltb x y = true.
Proof.
  intros Hx Hy H1 H2.
  assert (Hn : ~ (~ lex_lt (key x) (key y) /\ ~ lex_lt (key y) (key x))).
  { intros Hk. apply eqb_key in Hk; [congruence | assumption ..]. }
  to_keys. lia.
Qed.

End F64Order.

(* ===================================================================== *)
(** * The spend-reduction suggestion: theorems *)
(* ===================================================================== *)

Import F64Order.

Lemma argmax_from_spec (l pre : list float) (best_i : nat) (best : float) :
  Forall number (pre ++ l) ->
  nth_error pre best_i = Some best ->
  (forall v, In v pre -> F64.leb v best = true) ->
  (forall j v, (j < best_i)%nat -> nth_error pre j = Some v ->
               F64.ltb v best = true) ->
  exists top,
    nth_error (pre ++ l)
      (Frame.argmax_from best_i best (List.length pre) l) = Some top
    /\ (forall v, In v (pre ++ l) -> F64.leb v top = true)
    /\ (forall j v,
           (j < Frame.argmax_from best_i best (List.length pre) l)%nat ->
           nth_error (pre ++ l) j = Some v -> F64.ltb v top = true).
Proof.
  revert pre best_i best.
  induction l as [| x l IH]; intros pre best_i best Hnum Hbest Hle Hlt.
  - simpl. rewrite app_nil_r. exists best. auto.
  - assert (Hshift : (pre ++ x :: l = (pre ++ [x]) ++ l)%list).
    { now rewrite <- app_assoc. }
    assert (Hlen : List.length (pre ++ [x]) = S (List.length pre)).
    { rewrite length_app. simpl. lia. }
    assert (Hall : forall v, In v (pre ++ x :: l) -> number v).
    { now apply Forall_forall. }
    assert (Hnx : number x).
    { apply Hall. apply in_or_app. right. now left. }
    assert (Hnpre : forall v, In v pre -> number v).
    { intros v Hv. apply Hall. apply in_or_app. now left. }
    assert (Hnb : number best).
    { apply Hnpre. eapply nth_error_In. exact Hbest. }
    assert (Hbi : (best_i < List.length pre)%nat).
    { apply nth_error_Some. congruence. }
    simpl. destruct (F64.ltb best x) eqn:E.
    + rewrite Hshift, <- Hlen. apply IH.
      * now rewrite <- Hshift.
      * rewrite nth_error_app2 by lia.
        now rewrite Nat.sub_diag.
      * intros v Hv. apply in_app_or in Hv. destruct Hv as [Hv | [<- | []]].
        -- apply ltb_leb; auto.
           apply (leb_ltb_trans v best x); auto.
        -- now apply leb_refl.
      * intros j v Hj Hv.
        rewrite nth_error_app1 in Hv by lia.
        assert (Hin : In v pre) by (eapply nth_error_In; exact Hv).
        apply (leb_ltb_trans v best x); auto.
    + rewrite Hshift, <- Hlen. apply IH.
      * now rewrite <- Hshift.
      * now rewrite nth_error_app1.
      * intros v Hv. apply in_app_or in Hv. destruct Hv as [Hv | [<- | []]].
        -- now apply Hle.
        -- now apply not_ltb_leb.
      * intros j v Hj Hv. rewrite nth_error_app1 in Hv by lia.
        now apply (Hlt j).
Qed.

Lemma fill_nan_numbers (l : list float) :
  Forall number l -> List.map Frame.fill_nan l = l.
Proof.
  induction 1 as [| x l Hx _ IH]; [reflexivity |].
  simpl. unfold Frame.fill_nan at 1. rewrite Hx. now rewrite IH.
Qed.

Lemma nanargmax_spec (l : list float) :
  Forall number l -> l <> [] ->
  exists i top,
    Frame.nanargmax l = Ok i
    /\ nth_error l i = Some top
    /\ (forall v, In v l -> F64.leb v top = true)
    /\ (forall j v, (j < i)%nat -> nth_error l j = Some v ->
                    F64.ltb v top = true).
Proof.
  intros Hnum Hne. destruct l as [| x l]; [congruence |].
  unfold Frame.nanargmax.
  assert (Hx : number x) by (now inversion Hnum).
  replace (forallb F64.is_nan (x :: l)) with false
    by (simpl; now rewrite Hx).
  rewrite (fill_nan_numbers _ Hnum).
  destruct (argmax_from_spec l [x] 0 x Hnum eq_refl) as [top Htop].
  - intros v [<- | []]. now apply leb_refl.
  - intros j v Hj. lia.
  - exists (Frame.argmax_from 0 x 1 l), top. split; [reflexivity |].
    exact Htop.
Qed.

Lemma loc_nth (df : frame) (i label : nat) (r : subscription) :
  NoDup (List.map fst df) ->
  nth_error df i = Some (label, r) ->
  Frame.loc df label = Ok r.
Proof.
  unfold Frame.loc. revert i.
  induction df as [| [l0 r0] df IH]; intros i Hnd Hi.
  - destruct i; discriminate Hi.
  - simpl in Hnd. inversion Hnd as [| ? ? Hnotin Hnd']; subst.
    destruct i as [| i]; simpl in Hi.
    + injection Hi as -> ->. simpl. now rewrite Nat.eqb_refl.
    + simpl. destruct (Nat.eqb_spec l0 label) as [-> | Hneq].
      * exfalso. apply Hnotin.
        apply nth_error_In in Hi.
        change label with (fst (label, r)). now apply in_map.
      * now apply (IH i).
Qed.

Lemma select_labels (p : subscription -> bool) (df : frame) :
  NoDup (List.map fst df) -> NoDup (List.map fst (Frame.select p df)).
Proof.
  unfold Frame.select. induction df as [| [l0 r0] df IH]; intros Hnd.
  - constructor.
  - simpl in Hnd. inversion Hnd as [| ? ? Hnotin Hnd']; subst.
    simpl. destruct (p r0); simpl; [| now apply IH].
    constructor; [| now apply IH].
    intros Hin. apply Hnotin.
    apply in_map_iff in Hin. destruct Hin as [lr [Hl Hlr]].
    apply filter_In in Hlr. apply in_map_iff. exists lr. tauto.
Qed.

Lemma of_rows_labels (records : list subscription) :
  NoDup (List.map fst (Frame.of_rows records)).
Proof. rewrite labels_of_rows. apply seq_NoDup. Qed.

Lemma idxmax_loc (df : frame) :
  NoDup (List.map fst df) ->
  Forall cost_is_number (Frame.rows df) ->
  df <> [] ->
  exists i label most_expensive,
    Frame.idxmax_Cost df = Ok label
    /\ Frame.loc df label = Ok most_expensive
    /\ nth_error (Frame.rows df) i = Some most_expensive
    /\ (forall r, In r (Frame.rows df) ->
                  F64.leb (Cost r) (Cost most_expensive) = true)
    /\ (forall j r, (j < i)%nat -> nth_error (Frame.rows df) j = Some r ->
                    F64.ltb (Cost r) (Cost most_expensive) = true).
Proof.
  intros Hnd Hnum Hne.
  assert (Hcosts : List.map (fun lr => Cost (snd lr)) df
                   = List.map Cost (Frame.rows df)).
  { unfold Frame.rows. now rewrite map_map. }
  destruct (nanargmax_spec (List.map Cost (Frame.rows df)))
    as [i [top [Harg [Hi [Hle Hlt]]]]].
  - apply Forall_map. exact Hnum.
  - unfold Frame.rows. destruct df; [congruence | discriminate].
  - rewrite nth_error_map in Hi.
    destruct (nth_error (Frame.rows df) i) as [r |] eqn:Hr; [| discriminate].
    simpl in Hi. injection Hi as <-.
    unfold Frame.rows in Hr. rewrite nth_error_map in Hr.
    destruct (nth_error df i) as [[label r0] |] eqn:Hdf; [| discriminate].
    simpl in Hr. injection Hr as ->.
    exists i, label, r. split; [| split; [| split; [| split]]].
    + unfold Frame.idxmax_Cost. rewrite Hcosts, Harg. simpl.
      rewrite nth_error_map, Hdf. reflexivity.
    + now apply (loc_nth df i).
    + unfold Frame.rows. rewrite nth_error_map, Hdf. reflexivity.
    + intros r' Hr'. apply Hle. now apply in_map.
    + intros j r' Hj Hr'. apply (Hlt j); [assumption |].
      rewrite nth_error_map, Hr'. reflexivity.
Qed.

Lemma suggestion_part_empty (float_str : float -> string)
      (records : list subscription) (insights : list insight) :
  List.filter discretionary records = [] ->
  suggestion_part float_str (Frame.of_rows records) insights = Ok insights.
Proof.
  intros Hempty. unfold suggestion_part.
  fold discretionary.
  assert (Hsel : Frame.select discretionary (Frame.of_rows records) = []).
  { apply map_eq_nil with (f := snd).
    change (Frame.rows (Frame.select discretionary (Frame.of_rows records)) = []).
    now rewrite rows_select, rows_of_rows. }
  change (fun r : subscription =>
            String.eqb (get_priority (Category r)) "2nd Priority")
    with discretionary.
  rewrite Hsel. reflexivity.
Qed.

Lemma suggestion_part_max (float_str : float -> string)
      (records : list subscription) :
  List.filter discretionary records <> [] ->
  Forall cost_is_number (List.filter discretionary records) ->
  exists i most_expensive,
    nth_error (List.filter discretionary records) i = Some most_expensive
    /\ (forall r, In r (List.filter discretionary records) ->
                  F64.leb (Cost r) (Cost most_expensive) = true)
    /\ (forall j r, (j < i)%nat ->
                    nth_error (List.filter discretionary records) j = Some r ->
                    F64.ltb (Cost r) (Cost most_expensive) = true)
    /\ (forall insights,
           suggestion_part float_str (Frame.of_rows records) insights
           = Ok (insights ++ [suggestion_insight float_str most_expensive])%list).
Proof.
  intros Hne Hnum.
  set (lifestyle_subs := Frame.select discretionary (Frame.of_rows records)).
  assert (Hrows : Frame.rows lifestyle_subs = List.filter discretionary records).
  { unfold lifestyle_subs. now rewrite rows_select, rows_of_rows. }
  assert (Hne' : lifestyle_subs <> []).
  { intros H. rewrite H in Hrows. simpl in Hrows. congruence. }
  destruct (idxmax_loc lifestyle_subs)
    as [i [label [r [Hidx [Hloc [Hi [Hle Hlt]]]]]]].
  - apply select_labels, of_rows_labels.
  - now rewrite Hrows.
  - exact Hne'.
  - rewrite Hrows in *. exists i, r.
    split; [exact Hi |]. split; [exact Hle |]. split; [exact Hlt |].
    intros insights. unfold suggestion_part.
    change (fun r : subscription =>
              String.eqb (get_priority (Category r)) "2nd Priority")
      with discretionary.
    fold lifestyle_subs.
    destruct lifestyle_subs as [| lr rest] eqn:E; [congruence |].
    cbv beta iota delta [Frame.empty negb].
    rewrite Hidx. simpl. rewrite Hloc. reflexivity.
Qed.

Lemma suggestion_type (float_str : float -> string) (today : date)
      (records : list subscription) (added : list insight)
      (names : list string) :
  (added = [] \/ exists r, added = [suggestion_insight float_str r]) ->
  of_type "Suggestion"
    (flat_map (renewal_of float_str today) records ++ added
     ++ List.map duplicate_insight names)%list
  = added.
Proof.
  intros Hadded. rewrite !of_type_app.
  rewrite (of_type_none "Suggestion" (flat_map _ records)).
  - rewrite (of_type_none "Suggestion" (List.map duplicate_insight names)).
    + rewrite app_nil_r. simpl. apply of_type_all.
      destruct Hadded as [-> | [r ->]]; repeat constructor.
    + apply Forall_map, Forall_forall. intros n _. discriminate.
  - eapply Forall_impl; [| apply renewals_type].
    intros i Hi. rewrite Hi. discriminate.
Qed.

(** The Suggestion insights of a pass are what part B adds. *)
Lemma generate_insights_suggestion (float_str : float -> string)
      (today : date) (records : list subscription) :
  exists out added,
    generate_insights float_str today records = Ok out
    /\ of_type "Suggestion" out = added
    /\ (forall insights,
           suggestion_part float_str (Frame.of_rows records) insights
           = Ok (insights ++ added)%list)
    /\ (added = []
        \/ exists most_expensive,
             added = [suggestion_insight float_str most_expensive]).
Proof.
  destruct (generate_insights_parts float_str today records)
    as [added [Hadd [Hshape Hout]]].
  eexists. exists added. split; [exact Hout |].
  split; [now apply suggestion_type |]. split; assumption.
Qed.

(** C4. A pass emits at most one Suggestion insight. When no record is
    discretionary it emits none, and does not raise. When some record is
    discretionary, and every discretionary cost is a number, it emits
    exactly one: it names a discretionary record of the collection whose
    cost no discretionary record exceeds, and quotes that record's own
    cost as billed. With discretionary costs 5, 40 and 12 the suggestion
    names the record that costs 40. *)
Theorem suggestion_exact :
  forall (float_str : float -> string) (today : date)
         (records : list subscription),
    (exists out,
        generate_insights float_str today records = Ok out
        /\ (List.length (of_type "Suggestion" out) <= 1)%nat)
    /\ (List.filter discretionary records = [] ->
        exists out,
          generate_insights float_str today records = Ok out
          /\ of_type "Suggestion" out = [])
    /\ (List.filter discretionary records <> [] ->
        Forall cost_is_number (List.filter discretionary records) ->
        exists out most_expensive,
          generate_insights float_str today records = Ok out
          /\ of_type "Suggestion" out
             = [ {| type := "Suggestion";
                    title := "Spending Strategy";
                    msg := "Consider pausing '" ++ Name most_expensive
                           ++ "' (₹" ++ float_str (Cost most_expensive)
                           ++ ") if you need to save money." |} ]
          /\ In most_expensive records
          /\ discretionary most_expensive = true
          /\ (forall r, In r records -> discretionary r = true ->
                        F64.leb (Cost r) (Cost most_expensive) = true)).
Proof.
  intros float_str today records.
  destruct (generate_insights_suggestion float_str today records)
    as [out [added [Hout [Htype [Hadd Hshape]]]]].
  split; [| split].
  - exists out. split; [exact Hout |]. rewrite Htype.
    destruct Hshape as [-> | [r ->]]; simpl; lia.
  - intros Hempty. exists out. split; [exact Hout |]. rewrite Htype.
    pose proof (suggestion_part_empty float_str records [] Hempty) as H.
    rewrite (Hadd []) in H. simpl in H. now injection H.
  - intros Hne Hnum.
    destruct (suggestion_part_max float_str records Hne Hnum)
      as [i [r [Hi [Hle [_ Hpart]]]]].
    exists out, r. split; [exact Hout |].
    assert (Hin : In r (List.filter discretionary records)).
    { eapply nth_error_In. exact Hi. }
    apply filter_In in Hin. destruct Hin as [Hin Hdisc].
    split; [| split; [exact Hin | split; [exact Hdisc |]]].
    + rewrite Htype. specialize (Hpart []). rewrite (Hadd []) in Hpart.
      simpl in Hpart. now injection Hpart.
    + intros r' Hr' Hd'. apply Hle. apply filter_In. now split.
Qed.

Lemma suggestion_exact_witness :
  exists out most_expensive,
    generate_insights sample_float_str (Date.mkdate 2024 1 10)
      [ sub "Gym" 90 "Fitness" "2024-03-01";
        sub "Radio" 5 "Music" "2024-03-01";
        sub "Films" 40 "Entertainment" "2024-03-01";
        sub "Parcels" 12 "Shopping" "2024-03-01" ]
    = Ok out
    /\ of_type "Suggestion" out
       = [ {| type := "Suggestion";
              title := "Spending Strategy";
              msg := "Consider pausing '" ++ Name most_expensive
                     ++ "' (₹" ++ sample_float_str (Cost most_expensive)
                     ++ ") if you need to save money." |} ]
    /\ In most_expensive
         [ sub "Gym" 90 "Fitness" "2024-03-01";
           sub "Radio" 5 "Music" "2024-03-01";
           sub "Films" 40 "Entertainment" "2024-03-01";
           sub "Parcels" 12 "Shopping" "2024-03-01" ]
    /\ discretionary most_expensive = true
    /\ (forall r,
           In r [ sub "Gym" 90 "Fitness" "2024-03-01";
                  sub "Radio" 5 "Music" "2024-03-01";
                  sub "Films" 40 "Entertainment" "2024-03-01";
                  sub "Parcels" 12 "Shopping" "2024-03-01" ] ->
           discretionary r = true ->
           F64.leb (Cost r) (Cost most_expensive) = true).
Proof.
  apply (proj2 (proj2
           (suggestion_exact sample_float_str (Date.mkdate 2024 1 10) _))).
  - vm_compute. discriminate.
  - vm_compute. repeat constructor.
Defined.

(** Why the costs must be numbers: when every discretionary cost is a
    NaN the column has no maximum, [idxmax] fails inside the [try] block
    and part B adds nothing. *)
Example suggestion_without_numbers :
  generate_insights sample_float_str (Date.mkdate 2024 1 10)
    [ mksub "Films" F64.nan "Monthly" "Entertainment" "2024-03-01" ]
  = Ok [].
Proof. reflexivity. Qed.

Example suggestion_sample :
  exists out,
    generate_insights sample_float_str (Date.mkdate 2024 1 10)
      [ sub "Gym" 90 "Fitness" "2024-03-01";
        sub "Radio" 5 "Music" "2024-03-01";
        sub "Films" 40 "Entertainment" "2024-03-01";
        sub "Parcels" 12 "Shopping" "2024-03-01" ]
    = Ok out
    /\ of_type "Suggestion" out
       = [suggestion_insight sample_float_str
            (sub "Films" 40 "Entertainment" "2024-03-01")].
Proof. eexists. split; vm_compute; reflexivity. Qed.

(** C9. When a discretionary record bears the largest discretionary
    cost and no discretionary record before it in the input bears an
    equal cost, the one Suggestion names that record, however many later
    records tie with it (all discretionary costs being numbers). *)
Theorem suggestion_earliest_tie :
  forall (float_str : float -> string) (today : date)
         (pre : list subscription) (r : subscription)
         (post : list subscription),
    Forall cost_is_number (List.filter discretionary (pre ++ r :: post)) ->
    discretionary r = true ->
    (forall r', In r' (pre ++ r :: post) -> discretionary r' = true ->
                F64.leb (Cost r') (Cost r) = true) ->
    (forall r', In r' pre -> discretionary r' = true ->
                F64.eqb (Cost r') (Cost r) = false) ->
    exists out,
      generate_insights float_str today (pre ++ r :: post) = Ok out
      /\ of_type "Suggestion" out = [suggestion_insight float_str r].
Proof.
  intros float_str today pre r post Hnum Hr Hmax Hearlier.
  set (records := (pre ++ r :: post)%list) in *.
  assert (Hfilter : List.filter discretionary records
                    = (List.filter discretionary pre
                       ++ r :: List.filter discretionary post)%list).
  { unfold records. rewrite filter_app. simpl. now rewrite Hr. }
  assert (Hne : List.filter discretionary records <> []).
  { rewrite Hfilter. intros H. apply app_eq_nil in H. destruct H; discriminate. }
  destruct (generate_insights_suggestion float_str today records)
    as [out [added [Hout [Htype [Hadd _]]]]].
  destruct (suggestion_part_max float_str records Hne Hnum)
    as [i [top [Hi [Hle [Hlt Hpart]]]]].
  exists out. split; [exact Hout |].
  rewrite Htype. specialize (Hpart []). rewrite (Hadd []) in Hpart.
  simpl in Hpart. injection Hpart as ->.
  assert (Hnumber : forall r', In r' (List.filter discretionary records) ->
                               number (Cost r')).
  { now apply Forall_forall. }
  assert (Hrin : In r (List.filter discretionary records)).
  { rewrite Hfilter. apply in_or_app. right. now left. }
  assert (Htopin : In top (List.filter discretionary records)).
  { eapply nth_error_In. exact Hi. }
  set (k := List.length (List.filter discretionary pre)).
  assert (Hk : nth_error (List.filter discretionary records) k = Some r).
  { rewrite Hfilter. unfold k. rewrite nth_error_app2 by lia.
    now rewrite Nat.sub_diag. }
  destruct (Nat.lt_trichotomy i k) as [Hik | [Hik | Hik]].
  - exfalso.
    rewrite Hfilter, nth_error_app1 in Hi by exact Hik.
    apply nth_error_In in Hi. apply filter_In in Hi. destruct Hi as [Hpre Hd].
    assert (Hin : In top records).
    { unfold records. apply in_or_app. now left. }
    apply (ltb_not_leb (Cost top) (Cost r)); auto.
    apply leb_neq_ltb; auto.
  - subst i. rewrite Hk in Hi. injection Hi as <-. reflexivity.
  - exfalso.
    apply (ltb_not_leb (Cost r) (Cost top)); auto.
    + now apply (Hlt k).
    + apply Hmax; [| apply filter_In in Htopin; tauto].
      apply filter_In in Htopin. tauto.
Qed.

Lemma suggestion_earliest_tie_witness :
  exists out,
    generate_insights sample_float_str (Date.mkdate 2024 1 10)
      ([ sub "Gym" 90 "Fitness" "2024-03-01";
         sub "Radio" 5 "Music" "2024-03-01" ]
         ++ sub "Films" 40 "Entertainment" "2024-03-01"
         :: [ sub "Parcels" 40 "Shopping" "2024-03-01";
              sub "Games" 40 "Uncategorized" "2024-03-01" ])
    = Ok out
    /\ of_type "Suggestion" out
       = [suggestion_insight sample_float_str
            (sub "Films" 40 "Entertainment" "2024-03-01")].
Proof.
  apply suggestion_earliest_tie.
  - vm_compute. repeat constructor.
  - reflexivity.
  - intros r' Hin Hd. simpl in Hin.
    repeat destruct Hin as [<- | Hin]; try contradiction;
      try reflexivity; discriminate Hd.
  - intros r' Hin Hd. simpl in Hin.
    repeat destruct Hin as [<- | Hin]; try contradiction;
      try reflexivity; discriminate Hd.
Defined.

(* ===================================================================== *)
(** * Further properties of the categoriser *)
(* ===================================================================== *)

Lemma suggest_loop_in (name : string) (items : list (string * list string)) :
  In (suggest_loop name items)
     (List.map fst items ++ ["Uncategorized"])%list.
Proof.
  induction items as [| [c ks] items IH]; simpl.
  - now left.
  - destruct (any_key_in name ks); [now left | now right].
Qed.

(** X1. Whatever the name, the suggested category is one of the eight
    categories of the enumeration; the guard on the empty name changes
    nothing, since the categoriser itself answers Uncategorized there;
    so every option of the category box is one of the eight. *)
Theorem suggested_category_in_enumeration :
  forall name : string,
    In (suggest_category name) categories
    /\ suggested_cat name = suggest_category name
    /\ (forall option, In option (category_options name) ->
                       In option categories).
Proof.
  intros name.
  assert (Hin : In (suggest_category name) categories).
  { pose proof (suggest_loop_in (Text.lower name) keywords) as H.
    unfold suggest_category. simpl in H. unfold categories. simpl.
    intuition. }
  assert (Hguard : suggested_cat name = suggest_category name).
  { destruct name; reflexivity. }
  split; [exact Hin |]. split; [exact Hguard |].
  intros option [<- | Hopt].
  - now rewrite Hguard.
  - unfold categories. simpl in *. intuition.
Qed.

Lemma occurs_in_trans (a b c : string) :
  occurs_in a b -> occurs_in b c -> occurs_in a c.
Proof.
  intros [a1 [a2 Hab]] [b1 [b2 Hbc]]. subst.
  exists (b1 ++ a1), (a2 ++ b2).
  assert (Hassoc : forall x y z : string, (x ++ y) ++ z = x ++ y ++ z).
  { induction x as [| ch x IHx]; intros y z; simpl;
      [reflexivity | now rewrite IHx]. }
  now rewrite !Hassoc.
Qed.

Lemma has_keyword_longer (shorter longer : string) (keys : list string) :
  occurs_in shorter longer ->
  has_keyword shorter keys -> has_keyword longer keys.
Proof.
  intros Hocc [k [Hin Hk]]. exists k. split; [exact Hin |].
  now apply (occurs_in_trans k shorter longer).
Qed.

Lemma suggest_loop_precedence (n1 n2 : string) :
  (forall keys, has_keyword n1 keys -> has_keyword n2 keys) ->
  forall items : list (string * list string),
  exists before after,
    (List.map fst items ++ ["Uncategorized"])%list
    = (before ++ suggest_loop n1 items :: after)%list
    /\ In (suggest_loop n2 items) (before ++ [suggest_loop n1 items])%list.
Proof.
  intros Hmore. induction items as [| [c ks] items IH]; simpl.
  - exists [], []. split; [reflexivity | now left].
  - destruct (any_key_in n1 ks) eqn:E1.
    + apply any_key_in_spec, Hmore, any_key_in_spec in E1. rewrite E1.
      exists [], (List.map fst items ++ ["Uncategorized"])%list.
      split; [reflexivity | now left].
    + destruct IH as [before [after [Heq Hin]]].
      exists (c :: before), after. split.
      * simpl. now rewrite Heq.
      * destruct (any_key_in n2 ks); [now left | now right].
Qed.

Lemma suggest_loop_fallback (name : string)
      (items : list (string * list string)) :
  ~ In "Uncategorized" (List.map fst items) ->
  suggest_loop name items = "Uncategorized" ->
  forall c ks, In (c, ks) items -> ~ has_keyword name ks.
Proof.
  induction items as [| [c0 ks0] items IH]; intros Hfresh Hres c ks Hin.
  - destruct Hin.
  - simpl in Hres, Hfresh. destruct (any_key_in name ks0) eqn:E.
    + exfalso. apply Hfresh. now left.
    + destruct Hin as [Hin | Hin].
      * injection Hin as <- <-. intros H.
        apply any_key_in_spec in H. congruence.
      * apply (IH ltac:(tauto) Hres c ks Hin).
Qed.

(** X2. Precedence is monotone in the name. If a name occurs inside a
    longer one, letter case aside, the category of the longer name is
    the category of the shorter one or one that comes before it in the
    order of the table; in particular a name that has a category never
    loses it to Uncategorized by gaining text before or after it. *)
Theorem suggest_category_longer_name :
  forall shorter longer : string,
    occurs_in (Text.lower shorter) (Text.lower longer) ->
    (exists before after,
        precedence = (before ++ suggest_category shorter :: after)%list
        /\ In (suggest_category longer)
              (before ++ [suggest_category shorter])%list)
    /\ (suggest_category shorter <> "Uncategorized" ->
        suggest_category longer <> "Uncategorized").
Proof.
  intros shorter longer Hocc.
  assert (Hmore : forall keys,
             has_keyword (Text.lower shorter) keys ->
             has_keyword (Text.lower longer) keys).
  { intros keys. now apply has_keyword_longer. }
  split.
  - apply (suggest_loop_precedence _ _ Hmore keywords).
  - intros Hcat Hlong. apply Hcat.
    apply suggest_loop_none. intros c ks Hin Hk.
    apply (suggest_loop_fallback (Text.lower longer) keywords) with (c := c) (ks := ks).
    + simpl. intuition discriminate.
    + exact Hlong.
    + exact Hin.
    + now apply Hmore.
Qed.

Lemma suggest_category_longer_name_witness :
  suggest_category "My NETFLIX and Gym" <> "Uncategorized".
Proof.
  assert (Hocc : occurs_in (Text.lower "Gym") (Text.lower "My NETFLIX and Gym")).
  { exists "my netflix and ", "". reflexivity. }
  apply (proj2 (suggest_category_longer_name "Gym" "My NETFLIX and Gym" Hocc)).
  vm_compute. discriminate.
Defined.

(** X3. Every keyword of the table, taken as a name, is given the
    category it is listed under, with one exception: the keyword prime
    listed under Shopping is given Entertainment, which lists it too
    and is tried first, so that entry of the table never decides. *)
Theorem keywords_decide_their_category :
  forall (category : string) (keys : list string) (k : string),
    In (category, keys) keywords ->
    In k keys ->
    suggest_category k = category
    \/ (category = "Shopping" /\ k = "prime"
        /\ suggest_category k = "Entertainment").
Proof.
  intros category keys k Hin Hk.
  unfold keywords in Hin. simpl in Hin.
  repeat destruct Hin as [Hin | Hin]; try contradiction;
    injection Hin as <- <-; simpl in Hk;
    repeat destruct Hk as [<- | Hk]; try contradiction;
    first [ left; vm_compute; reflexivity
          | right; repeat split; vm_compute; reflexivity ].
Qed.

Lemma keywords_decide_their_category_witness :
  suggest_category "t-mobile" = "Utilities"
  \/ ("Utilities" = "Shopping" /\ "t-mobile" = "prime"
      /\ suggest_category "t-mobile" = "Entertainment").
Proof.
  apply (keywords_decide_their_category "Utilities"
           ["internet"; "electric"; "water"; "gas"; "mobile"; "phone";
            "verizon"; "at&t"; "t-mobile"]).
  - simpl. tauto.
  - simpl. tauto.
Defined.

(* ===================================================================== *)
(** * Further properties of the cost normaliser *)
(* ===================================================================== *)

Module F64Sign.

Lemma shr_1_nonneg (r : shr_record) : 0 <= shr_m r -> 0 <= shr_m (shr_1 r).
Proof.
  destruct r as [m r s]. simpl.
  destruct m as [| p | p]; simpl; try lia; destruct p; simpl; lia.
Qed.

Lemma iter_pos_keeps {A : Type} (P : A -> Prop) (f : A -> A) :
  (forall a, P a -> P (f a)) ->
  forall (n : positive) (a : A), P a -> P (iter_pos f n a).
Proof.
  intros Hf. induction n as [n IH | n IH |]; intros a Ha; simpl.
  - apply IH, IH, Hf, Ha.
  - apply IH, IH, Ha.
  - apply Hf, Ha.
Qed.

Lemma shr_fexp_nonneg (m e : Z) (l : location) :
  0 <= m -> 0 <= shr_m (fst (shr_fexp F64.prec F64.emax m e l)).
Proof.
  intros Hm. unfold shr_fexp, shr.
  assert (H0 : 0 <= shr_m (shr_record_of_loc m l)).
  { destruct l as [| []]; exact Hm. }
  destruct (fexp F64.prec F64.emax (Zdigits2 m + e) - e) as [| p | p]; simpl;
    try exact H0.
  apply (iter_pos_keeps (fun r => 0 <= shr_m r)); [apply shr_1_nonneg | exact H0].
Qed.

Lemma round_nearest_even_nonneg (m : Z) (l : location) :
  0 <= m -> 0 <= round_nearest_even m l.
Proof.
  intros Hm. unfold round_nearest_even.
  destruct l as [| []]; try destruct (Z.even m); lia.
Qed.

Lemma binary_round_aux_sign (s : bool) (m e : Z) (l : location) :
  0 <= m ->
  sign_bit (binary_round_aux F64.prec F64.emax s m e l) = Some s.
Proof.
  intros Hm. unfold binary_round_aux.
  pose proof (shr_fexp_nonneg m e l Hm) as H1.
  destruct (shr_fexp F64.prec F64.emax m e l) as [mrs' e'].
  simpl in H1.
  pose proof (shr_fexp_nonneg
                (round_nearest_even (shr_m mrs') (loc_of_shr_record mrs'))
                e' loc_Exact
                (round_nearest_even_nonneg _ _ H1)) as H2.
  destruct (shr_fexp F64.prec F64.emax
              (round_nearest_even (shr_m mrs') (loc_of_shr_record mrs'))
              e' loc_Exact) as [mrs'' e''].
  simpl in H2.
  destruct (shr_m mrs'') as [| p | p]; [reflexivity | | lia].
  destruct (e'' <=? F64.emax - F64.prec); reflexivity.
Qed.

Lemma div_core_nonneg (mx my : positive) (ex ey : Z) :
  0 <= fst (fst (SFdiv_core_binary F64.prec F64.emax (Zpos mx) ex (Zpos my) ey)).
Proof.
  unfold SFdiv_core_binary.
  set (e' := Z.min _ _). set (s := ex - ey - e').
  set (m' := match s with
             | 0 => Zpos mx
             | Zpos _ => Z.shiftl (Zpos mx) s
             | Zneg _ => 0
             end).
  assert (Hm' : 0 <= m').
  { unfold m'. destruct s; try lia. apply Z.shiftl_nonneg. lia. }
  destruct (Z.div_eucl m' (Zpos my)) as [q r] eqn:E. simpl.
  assert (Hq : q = m' / Zpos my) by (unfold Z.div; now rewrite E).
  rewrite Hq. apply Z.div_pos; lia.
Qed.

(** Dividing by a positive finite number keeps the sign, and makes a
    NaN only of a NaN. *)
Lemma div_positive_sign (x : float) (my : positive) (ey : Z) :
  sign_bit (F64.div x (S754_finite false my ey)) = sign_bit x.
Proof.
  unfold F64.div. destruct x as [sx | sx | | sx mx ex]; simpl;
    try reflexivity; try (now rewrite xorb_false_r).
  pose proof (div_core_nonneg mx my ex ey) as Hq.
  destruct (SFdiv_core_binary F64.prec F64.emax (Zpos mx) ex (Zpos my) ey)
    as [[mz ez] lz].
  simpl in Hq. rewrite xorb_false_r. now apply binary_round_aux_sign.
Qed.

Lemma is_nan_sign (x : float) : F64.is_nan x = true <-> sign_bit x = None.
Proof. destruct x; simpl; split; intros H; congruence. Qed.

Lemma non_negative_sign (x : float) :
  non_negative x <->
  (exists s, x = S754_zero s) \/ (sign_bit x = Some false).
Proof.
  unfold non_negative, F64.leb, SFleb, F64.zero.
  destruct x as [s | s | | s m e]; simpl.
  - split; [intros _; left; now exists s | reflexivity].
  - destruct s; simpl; split; intros H; try discriminate H; try reflexivity.
    + destruct H as [[s H] | H]; discriminate H.
    + now right.
  - split; [discriminate |]. intros [[s H] | H]; discriminate H.
  - destruct s; simpl; split; intros H; try discriminate H; try reflexivity.
    + destruct H as [[s H] | H]; discriminate H.
    + now right.
Qed.

Lemma div_positive_keeps (x : float) (my : positive) (ey : Z) :
  F64.is_nan (F64.div x (S754_finite false my ey)) = F64.is_nan x
  /\ (non_negative x -> non_negative (F64.div x (S754_finite false my ey))).
Proof.
  pose proof (div_positive_sign x my ey) as Hs. split.
  - destruct (F64.is_nan x) eqn:Ex.
    + apply is_nan_sign. rewrite Hs. now apply is_nan_sign.
    + destruct (F64.is_nan (F64.div x (S754_finite false my ey))) eqn:Ey;
        [| reflexivity].
      apply is_nan_sign in Ey. rewrite Hs in Ey. apply is_nan_sign in Ey.
      congruence.
  - intros Hx. apply non_negative_sign in Hx. apply non_negative_sign.
    destruct Hx as [[s ->] | Hx].
    + left. exists s. unfold F64.div. simpl. now rewrite xorb_false_r.
    + right. now rewrite Hs.
Qed.

End F64Sign.

(** X4. The normaliser never raises. When the cost is not a number the
    result is 0.0. When it converts to the float [x], the result is a
    NaN exactly when [x] is one, and a non-negative [x] gives a
    non-negative monthly cost, whatever the cycle. *)
Theorem normalize_cost_keeps_sign :
  forall cost cycle : pyvalue,
  exists monthly : float,
    normalize_cost cost cycle = Ok monthly
    /\ (not_a_number cost -> monthly = F64.zero)
    /\ (forall x, py_float cost = Ok x ->
                  F64.is_nan monthly = F64.is_nan x
                  /\ (non_negative x -> non_negative monthly)).
Proof.
  intros cost cycle.
  destruct (py_float_cases cost) as [[x Hx] | Hbad].
  - rewrite (normalize_cost_number cost cycle x Hx).
    eexists. split; [reflexivity |]. split.
    + intros [e He]. congruence.
    + intros x' Hx'. assert (x' = x) by congruence. subst x'.
      destruct (py_eq_str cycle "Yearly").
      * apply (F64Sign.div_positive_keeps x 6755399441055744 (-49)).
      * destruct (py_eq_str cycle "Quarterly").
        -- apply (F64Sign.div_positive_keeps x 6755399441055744 (-51)).
        -- now split.
  - rewrite (normalize_cost_not_a_number cost cycle Hbad).
    exists F64.zero. split; [reflexivity |]. split; [reflexivity |].
    intros x Hx. destruct Hbad as [e He]. congruence.
Qed.

Lemma normalize_cost_keeps_sign_witness :
  exists monthly : float,
    normalize_cost (PyStr "99.90") (PyStr "Yearly") = Ok monthly
    /\ F64.is_nan monthly = false
    /\ non_negative monthly.
Proof.
  destruct (normalize_cost_keeps_sign (PyStr "99.90") (PyStr "Yearly"))
    as [monthly [Hm [_ Hx]]].
  exists monthly. split; [exact Hm |].
  destruct (Hx (S754_finite false 7029837543348634 (-46)) eq_refl) as [Hnan Hpos].
  split; [exact Hnan | apply Hpos; reflexivity].
Defined.

(* ===================================================================== *)
(** * Further properties of the insights engine *)
(* ===================================================================== *)

(** Part B, read by position: the labels of the frame play no part in
    what it adds. *)
Lemma suggestion_part_pick (float_str : float -> string)
      (records : list subscription) (insights : list insight) :
  suggestion_part float_str (Frame.of_rows records) insights
  = Ok (insights
        ++ pick_suggestion float_str (List.filter discretionary records))%list.
Proof.
  unfold suggestion_part.
  change (fun r : subscription =>
            String.eqb (get_priority (Category r)) "2nd Priority")
    with discretionary.
  remember (Frame.select discretionary (Frame.of_rows records)) as ls eqn:Els.
  assert (Hrows : Frame.rows ls = List.filter discretionary records).
  { subst ls. now rewrite rows_select, rows_of_rows. }
  assert (Hnd : NoDup (List.map fst ls)).
  { subst ls. apply select_labels, of_rows_labels. }
  rewrite <- Hrows. clear Els Hrows.
  destruct ls as [| lr rest].
  - simpl. now rewrite app_nil_r.
  - cbv beta iota delta [Frame.empty negb].
    unfold pick_suggestion, Frame.idxmax_Cost.
    replace (List.map (fun lr0 => Cost (snd lr0)) (lr :: rest))
      with (List.map Cost (Frame.rows (lr :: rest)))
      by (unfold Frame.rows; now rewrite map_map).
    change (Frame.rows (lr :: rest)) with (snd lr :: Frame.rows rest) at 2.
    cbv beta iota.
    destruct (Frame.nanargmax (List.map Cost (Frame.rows (lr :: rest))))
      as [i | e]; simpl bind.
    + change (fst lr :: List.map fst rest) with (List.map fst (lr :: rest)).
      unfold Frame.rows at 1. rewrite !nth_error_map.
      destruct (nth_error (lr :: rest) i) as [[label r] |] eqn:Hi;
        cbn [option_map of_option bind fst snd].
      * rewrite (loc_nth (lr :: rest) i label r Hnd Hi). reflexivity.
      * simpl. now rewrite app_nil_r.
    + simpl. now rewrite app_nil_r.
Qed.

(** A pass in full: the renewal alerts of the rows in order, then the
    suggestion picked among the discretionary rows, then one warning per
    duplicated name. *)
Lemma generate_insights_full (float_str : float -> string) (today : date)
      (records : list subscription) :
  generate_insights float_str today records
  = Ok (flat_map (renewal_of float_str today) records
        ++ pick_suggestion float_str (List.filter discretionary records)
        ++ List.map duplicate_insight
             (duplicated_among (List.map Name records)))%list.
Proof.
  destruct (generate_insights_parts float_str today records)
    as [added [Hadd [_ Hout]]].
  specialize (Hadd []). rewrite suggestion_part_pick in Hadd.
  simpl in Hadd. injection Hadd as Hadd.
  rewrite Hout, <- Hadd, duplicate_names_among. reflexivity.
Qed.

Lemma pick_suggestion_shape (float_str : float -> string)
      (lifestyle : list subscription) :
  pick_suggestion float_str lifestyle = []
  \/ exists r, In r lifestyle
               /\ pick_suggestion float_str lifestyle
                  = [suggestion_insight float_str r].
Proof.
  unfold pick_suggestion. destruct lifestyle as [| r0 rest]; [now left |].
  destruct (Frame.nanargmax (List.map Cost (r0 :: rest))) as [i | e];
    [| now left].
  destruct (nth_error (r0 :: rest) i) as [r |] eqn:Hi; [| now left].
  right. exists r. split; [| reflexivity].
  eapply nth_error_In. exact Hi.
Qed.

Lemma renewal_of_due (float_str : float -> string) (today : date)
      (r : subscription) :
  (due today r = true /\
   exists days_until,
     0 <= days_until <= 2
     /\ renewal_of float_str today r
        = [renewal_insight float_str r days_until])
  \/ (due today r = false /\ renewal_of float_str today r = []).
Proof.
  unfold due, renewal_of.
  destruct (Date.strptime (Renewal_Date r)) as [d | e]; [| now right].
  cbv zeta.
  destruct ((0 <=? Date.days_between d today)
            && (Date.days_between d today <=? 2)) eqn:E.
  - left. split; [reflexivity |].
    exists (Date.days_between d today). split; [| reflexivity].
    apply andb_true_iff in E. lia.
  - now right.
Qed.

Lemma pick_suggestion_type (float_str : float -> string)
      (lifestyle : list subscription) :
  Forall (fun i => type i = "Suggestion")
         (pick_suggestion float_str lifestyle).
Proof.
  destruct (pick_suggestion_shape float_str lifestyle) as [-> | [r [_ ->]]];
    repeat constructor.
Qed.

Lemma warnings_type (names : list string) :
  Forall (fun i => type i = "Warning") (List.map duplicate_insight names).
Proof. apply Forall_map, Forall_forall. reflexivity. Qed.

Lemma panel_of_insights (l : list insight) :
  l <> [] -> insights_panel l = List.map render_item l.
Proof. destruct l; [congruence | reflexivity]. Qed.

Lemma render_typed (t : string) (w : string -> widget) (l : list insight) :
  (forall i, type i = t -> render_item i = w (item_text i)) ->
  Forall (fun i => type i = t) l ->
  List.map render_item l = List.map (fun i => w (item_text i)) l.
Proof.
  intros Hw Hl. apply map_ext_in. intros i Hi.
  apply Hw. rewrite Forall_forall in Hl. now apply Hl.
Qed.

(** X5. A pass lists the renewal alerts first, then at most one
    suggestion, then the duplicate warnings, and nothing else. The
    insights panel therefore shows the alerts as errors, then the
    suggestion as an info box (the catch-all branch is only ever reached
    by a suggestion), then the warnings; and with no insight it shows
    the all-clear instead. *)
Theorem insights_panel_layout :
  forall (float_str : float -> string) (today : date)
         (records : list subscription),
  exists alerts suggestion warnings : list insight,
    generate_insights float_str today records
    = Ok (alerts ++ suggestion ++ warnings)%list
    /\ Forall (fun i => type i = "Critical") alerts
    /\ Forall (fun i => type i = "Suggestion") suggestion
    /\ Forall (fun i => type i = "Warning") warnings
    /\ (List.length suggestion <= 1)%nat
    /\ insights_panel (alerts ++ suggestion ++ warnings)%list
       = match (alerts ++ suggestion ++ warnings)%list with
         | [] => [st_success "All systems go! No alerts detected."]
         | _ =>
             (List.map (fun i => st_error (item_text i)) alerts
              ++ List.map (fun i => st_info (item_text i)) suggestion
              ++ List.map (fun i => st_warning (item_text i)) warnings)%list
         end.
Proof.
  intros float_str today records.
  exists (flat_map (renewal_of float_str today) records),
    (pick_suggestion float_str (List.filter discretionary records)),
    (List.map duplicate_insight (duplicated_among (List.map Name records))).
  pose proof (renewals_type float_str today records) as Ha.
  pose proof (pick_suggestion_type float_str
                (List.filter discretionary records)) as Hs.
  pose proof (warnings_type (duplicated_among (List.map Name records))) as Hw.
  split; [apply generate_insights_full |].
  split; [exact Ha |]. split; [exact Hs |]. split; [exact Hw |]. split.
  - destruct (pick_suggestion_shape float_str
                (List.filter discretionary records)) as [-> | [r [_ ->]]];
      simpl; lia.
  - set (alerts := flat_map _ records) in *.
    set (suggestion := pick_suggestion _ _) in *.
    set (warnings := List.map duplicate_insight _) in *.
    destruct (alerts ++ suggestion ++ warnings)%list as [| i l] eqn:E;
      [reflexivity |].
    rewrite <- E. rewrite panel_of_insights by (rewrite E; discriminate).
    rewrite !map_app.
    rewrite (render_typed "Critical" st_error alerts), 
      (render_typed "Suggestion" st_info suggestion),
      (render_typed "Warning" st_warning warnings); try assumption;
      try reflexivity;
      intros it Ht; unfold render_item; rewrite Ht; reflexivity.
Qed.

(** The three severities of a pass, each read off the collection. *)
Lemma generate_insights_by_type (float_str : float -> string) (today : date)
      (records : list subscription) :
  exists out,
    generate_insights float_str today records = Ok out
    /\ of_type "Critical" out = flat_map (renewal_of float_str today) records
    /\ of_type "Suggestion" out
       = pick_suggestion float_str (List.filter discretionary records)
    /\ of_type "Warning" out
       = List.map duplicate_insight (duplicated_among (List.map Name records))
    /\ List.length out
       = (List.length (of_type "Critical" out)
          + List.length (of_type "Suggestion" out)
          + List.length (of_type "Warning" out))%nat.
Proof.
  eexists. split; [apply generate_insights_full |].
  assert (Hshape :
            pick_suggestion float_str (List.filter discretionary records) = []
            \/ exists r,
                pick_suggestion float_str (List.filter discretionary records)
                = [suggestion_insight float_str r]).
  { destruct (pick_suggestion_shape float_str
                (List.filter discretionary records)) as [H | [r [_ H]]];
      [now left | right; now exists r]. }
  rewrite (critical_part _ _ _ _ _ Hshape), (suggestion_type _ _ _ _ _ Hshape),
    (warning_part _ _ _ _ _ Hshape).
  repeat split. rewrite !length_app. lia.
Qed.

Lemma renewal_of_length (float_str : float -> string) (today : date)
      (records : list subscription) :
  (List.length (flat_map (renewal_of float_str today) records)
   <= List.length records)%nat.
Proof.
  induction records as [| r records IH]; simpl; [lia |].
  rewrite length_app.
  destruct (renewal_of_due float_str today r) as [[_ [d [_ ->]]] | [_ ->]];
    simpl; lia.
Qed.

Lemma remove_count (x : string) (l : list string) :
  (List.length (remove string_dec x l) + count_occ string_dec l x
   = List.length l)%nat.
Proof.
  induction l as [| y l IH]; simpl; [reflexivity |].
  destruct (string_dec x y) as [Hxy | Hxy]; destruct (string_dec y x);
    try congruence; simpl; lia.
Qed.

Lemma remove_count_other (x y : string) (l : list string) :
  x <> y ->
  count_occ string_dec (remove string_dec x l) y = count_occ string_dec l y.
Proof.
  intros Hne. induction l as [| z l IH]; simpl; [reflexivity |].
  destruct (string_dec x z) as [Hxz | Hxz]; simpl;
    destruct (string_dec z y); try congruence; now rewrite IH.
Qed.

(** Distinct names that each appear twice take up two rows apiece. *)
Lemma twice_each (warned names : list string) :
  NoDup warned ->
  (forall n, In n warned -> (1 < count_occ string_dec names n)%nat) ->
  (2 * List.length warned <= List.length names)%nat.
Proof.
  revert names. induction warned as [| x warned IH]; intros names Hnd Hcount.
  - simpl. lia.
  - inversion Hnd as [| ? ? Hx Hnd']; subst.
    specialize (IH (remove string_dec x names) Hnd').
    pose proof (remove_count x names) as Hlen.
    pose proof (Hcount x (or_introl eq_refl)) as Hcx.
    assert (Hrest : (2 * List.length warned
                     <= List.length (remove string_dec x names))%nat).
    { apply IH. intros n Hn. rewrite remove_count_other.
      - apply Hcount. now right.
      - intros ->. contradiction. }
    simpl. lia.
Qed.

(** X6. A pass over [n] records emits at most [n] renewal alerts, at
    most one suggestion and at most [n / 2] duplicate warnings, and no
    insight of another kind; one record alone never raises a warning. *)
Theorem insights_count_bounds :
  forall (float_str : float -> string) (today : date)
         (records : list subscription),
  exists out,
    generate_insights float_str today records = Ok out
    /\ (List.length (of_type "Critical" out) <= List.length records)%nat
    /\ (List.length (of_type "Suggestion" out) <= 1)%nat
    /\ (2 * List.length (of_type "Warning" out) <= List.length records)%nat
    /\ List.length out
       = (List.length (of_type "Critical" out)
          + List.length (of_type "Suggestion" out)
          + List.length (of_type "Warning" out))%nat.
Proof.
  intros float_str today records.
  destruct (generate_insights_by_type float_str today records)
    as [out [Hout [Hc [Hs [Hw Hlen]]]]].
  exists out. split; [exact Hout |].
  split; [| split; [| split; [| exact Hlen]]].
  - rewrite Hc. apply renewal_of_length.
  - rewrite Hs.
    destruct (pick_suggestion_shape float_str
                (List.filter discretionary records)) as [-> | [r [_ ->]]];
      simpl; lia.
  - rewrite Hw, length_map.
    destruct (duplicated_among_spec (List.map Name records))
      as [Hnd [Hin _]].
    rewrite <- (length_map Name records).
    apply twice_each; [exact Hnd |]. intros n Hn. now apply Hin.
Qed.

(** X7. The suggestion never names an essential record: whatever the
    collection, every Suggestion insight of a pass quotes a record of
    the collection whose category is none of Utilities, Productivity,
    Software and Fitness. *)
Theorem suggestion_spares_essentials :
  forall (float_str : float -> string) (today : date)
         (records : list subscription),
  exists out,
    generate_insights float_str today records = Ok out
    /\ forall i, In i (of_type "Suggestion" out) ->
         exists r,
           In r records
           /\ ~ In (Category r) essentials
           /\ i = suggestion_insight float_str r.
Proof.
  intros float_str today records.
  destruct (generate_insights_by_type float_str today records)
    as [out [Hout [_ [Hs _]]]].
  exists out. split; [exact Hout |]. intros i Hi. rewrite Hs in Hi.
  destruct (pick_suggestion_shape float_str
              (List.filter discretionary records)) as [H | [r [Hr H]]];
    rewrite H in Hi; [destruct Hi |].
  destruct Hi as [<- | []]. exists r.
  apply filter_In in Hr. destruct Hr as [Hin Hd].
  split; [exact Hin |]. split; [| reflexivity].
  unfold discretionary in Hd.
  destruct (get_priority_cases (Category r)) as [[_ Hp] | [Hnot _]];
    [| exact Hnot].
  rewrite Hp in Hd. discriminate Hd.
Qed.

Lemma pick_suggestion_fields (float_str : float -> string)
      (l l' : list subscription) :
  List.map name_and_cost l = List.map name_and_cost l' ->
  pick_suggestion float_str l = pick_suggestion float_str l'.
Proof.
  intros Heq.
  assert (Hcost : List.map Cost l = List.map Cost l').
  { assert (H : forall k, List.map Cost k
                          = List.map snd (List.map name_and_cost k)).
    { intros k. rewrite map_map. reflexivity. }
    now rewrite (H l), (H l'), Heq. }
  assert (Hnth : forall i,
             option_map name_and_cost (nth_error l i)
             = option_map name_and_cost (nth_error l' i)).
  { intros i. now rewrite <- !nth_error_map, Heq. }
  unfold pick_suggestion.
  destruct l as [| r l], l' as [| r' l']; try discriminate Heq;
    [reflexivity |].
  rewrite Hcost.
  destruct (Frame.nanargmax (List.map Cost (r' :: l'))) as [i | e];
    [| reflexivity].
  specialize (Hnth i).
  destruct (nth_error (r :: l) i) as [a |],
    (nth_error (r' :: l') i) as [b |]; simpl in Hnth;
    try discriminate Hnth; [| reflexivity].
  injection Hnth as Hname Hc.
  unfold suggestion_insight. now rewrite Hname, Hc.
Qed.

(** X8. The suggestion is decided by the names and costs of the
    discretionary records, in their order, and by nothing else: two
    collections that agree on those give the same Suggestion insights,
    whatever their essential records, billing cycles, renewal dates and
    the day of the pass. In particular costs are compared as billed,
    never per month. *)
Theorem suggestion_reads_names_and_costs :
  forall (float_str : float -> string) (today today' : date)
         (records records' : list subscription),
    List.map name_and_cost (List.filter discretionary records)
    = List.map name_and_cost (List.filter discretionary records') ->
    exists out out',
      generate_insights float_str today records = Ok out
      /\ generate_insights float_str today' records' = Ok out'
      /\ of_type "Suggestion" out = of_type "Suggestion" out'.
Proof.
  intros float_str today today' records records' Heq.
  destruct (generate_insights_by_type float_str today records)
    as [out [Hout [_ [Hs _]]]].
  destruct (generate_insights_by_type float_str today' records')
    as [out' [Hout' [_ [Hs' _]]]].
  exists out, out'. split; [exact Hout |]. split; [exact Hout' |].
  rewrite Hs, Hs'. now apply pick_suggestion_fields.
Qed.

Lemma suggestion_reads_names_and_costs_witness :
  exists out out',
    generate_insights sample_float_str (Date.mkdate 2024 1 10)
      [ mksub "Radio" (F64.of_Z 100) "Monthly" "Music" "2024-01-11";
        mksub "Power" (F64.of_Z 900) "Monthly" "Utilities" "2024-01-11";
        mksub "Films" (F64.of_Z 120) "Yearly" "Entertainment" "bad" ]
    = Ok out
    /\ generate_insights sample_float_str (Date.mkdate 2025 6 1)
         [ mksub "Radio" (F64.of_Z 100) "Yearly" "Shopping" "2024-03-01";
           mksub "Films" (F64.of_Z 120) "Monthly" "Uncategorized" "" ]
       = Ok out'
    /\ of_type "Suggestion" out = of_type "Suggestion" out'.
Proof.
  apply suggestion_reads_names_and_costs. reflexivity.
Defined.


Lemma no_warning_iff (names : list string) :
  List.map duplicate_insight (duplicated_among names) = [] <-> NoDup names.
Proof.
  destruct (duplicated_among_spec names) as [_ [Hin _]].
  rewrite (NoDup_count_occ string_dec). split.
  - intros H n. apply map_eq_nil in H.
    destruct (Nat.le_gt_cases (count_occ string_dec names n) 1) as [Hle | Hgt];
      [exact Hle |].
    apply Hin in Hgt. rewrite H in Hgt. destruct Hgt.
  - intros H. destruct (duplicated_among names) as [| n l] eqn:E;
      [reflexivity |].
    specialize (H n). assert (Hn : In n (n :: l)) by now left.
    apply Hin in Hn. lia.
Qed.




(** X9. A pass emits no Warning insight exactly when the names of the
    records are pairwise distinct. *)
Theorem no_warning_exactly :
  forall (float_str : float -> string) (today : date)
         (records : list subscription),
  exists out,
    generate_insights float_str today records = Ok out
    /\ (of_type "Warning" out = [] <-> NoDup (List.map Name records)).
Proof.
  intros float_str today records.
  destruct (generate_insights_by_type float_str today records)
    as [out [Hout [_ [_ [Hw _]]]]].
  exists out. split; [exact Hout |]. rewrite Hw. apply no_warning_iff.
Qed.



(** X11. Insights of a collection put together from two. The renewal
    alerts of the whole are those of the first part followed by those of
    the second, and every duplicate warning of a part is a warning of
    the whole: adding records never removes an alert or a warning, and
    removing records never adds one. *)
Theorem insights_of_concatenation :
  forall (float_str : float -> string) (today : date)
         (first second : list subscription),
  exists out1 out2 out,
    generate_insights float_str today first = Ok out1
    /\ generate_insights float_str today second = Ok out2
    /\ generate_insights float_str today (first ++ second) = Ok out
    /\ of_type "Critical" out
       = (of_type "Critical" out1 ++ of_type "Critical" out2)%list
    /\ (forall w, In w (of_type "Warning" out1)
                  \/ In w (of_type "Warning" out2) ->
                  In w (of_type "Warning" out)).
Proof.
  intros float_str today first second.
  destruct (generate_insights_by_type float_str today first)
    as [out1 [Hout1 [Hc1 [_ [Hw1 _]]]]].
  destruct (generate_insights_by_type float_str today second)
    as [out2 [Hout2 [Hc2 [_ [Hw2 _]]]]].
  destruct (generate_insights_by_type float_str today (first ++ second))
    as [out [Hout [Hc [_ [Hw _]]]]].
  exists out1, out2, out.
  split; [exact Hout1 |]. split; [exact Hout2 |]. split; [exact Hout |].
  split.
  - rewrite Hc, Hc1, Hc2. apply flat_map_app.
  - intros w Hin. rewrite Hw, Hw1, Hw2 in *. rewrite map_app.
    destruct (duplicated_among_spec (List.map Name first)) as [_ [H1 _]].
    destruct (duplicated_among_spec (List.map Name second)) as [_ [H2 _]].
    destruct (duplicated_among_spec
                (List.map Name first ++ List.map Name second)%list)
      as [_ [H _]].
    destruct Hin as [Hin | Hin]; apply in_map_iff in Hin;
      destruct Hin as [n [<- Hn]]; apply in_map; apply H;
      rewrite count_occ_app.
    + apply H1 in Hn. lia.
    + apply H2 in Hn. lia.
Qed.

(* ===================================================================== *)
(** * The entry form and the listing *)
(* ===================================================================== *)

Lemma digit_char_code (k : Z) :
  0 <= k <= 9 -> Text.code (Iso.digit_char k) = 48 + k.
Proof.
  intros Hk.
  assert (H : k = 0 \/ k = 1 \/ k = 2 \/ k = 3 \/ k = 4 \/ k = 5 \/ k = 6
              \/ k = 7 \/ k = 8 \/ k = 9) by lia.
  repeat destruct H as [-> | H]; try subst k; reflexivity.
Qed.

Lemma digit_char_is_digit (k : Z) :
  0 <= k <= 9 -> Date.is_digit (Iso.digit_char k) = true.
Proof.
  intros Hk. unfold Date.is_digit, Text.digit.
  rewrite (digit_char_code k Hk).
  destruct (Z.leb_spec 48 (48 + k)); [| lia].
  destruct (Z.leb_spec (48 + k) 57); [reflexivity | lia].
Qed.

Lemma field_Y_pad4 (y : Z) (rest : string) :
  0 <= y <= 9999 ->
  Date.field_Y (Iso.pad4 y ++ rest) = Some (y, rest).
Proof.
  intros Hy.
  assert (Hmod : forall n, 0 <= n mod 10 <= 9).
  { intros n. pose proof (Z.mod_pos_bound n 10). lia. }
  pose proof (Hmod (y / 1000)) as Ha. pose proof (Hmod (y / 100)) as Hb.
  pose proof (Hmod (y / 10)) as Hc. pose proof (Hmod y) as Hd.
  unfold Iso.pad4, Iso.pad2, Date.field_Y.
  cbn [String.append].
  rewrite !digit_char_is_digit by assumption.
  cbn [andb]. unfold Date.number_of, Text.digits_value.
  cbn [list_ascii_of_string List.map fold_left].
  rewrite !digit_char_code by assumption.
  f_equal. f_equal.
  Z.div_mod_to_equations. lia.
Qed.

Lemma field_m_pad2 (m : Z) (rest : string) :
  1 <= m <= 12 ->
  Date.field_m_dash (Iso.pad2 m ++ "-" ++ rest) = Some (m, rest).
Proof.
  intros Hm.
  assert (H : m = 1 \/ m = 2 \/ m = 3 \/ m = 4 \/ m = 5 \/ m = 6 \/ m = 7
              \/ m = 8 \/ m = 9 \/ m = 10 \/ m = 11 \/ m = 12) by lia.
  repeat destruct H as [-> | H]; try subst m; reflexivity.
Qed.

Lemma field_d_pad2 (d : Z) :
  1 <= d <= 31 -> Date.field_d (Iso.pad2 d) = Some (d, "").
Proof.
  intros Hd.
  assert (H : d = 1 \/ d = 2 \/ d = 3 \/ d = 4 \/ d = 5 \/ d = 6 \/ d = 7
              \/ d = 8 \/ d = 9 \/ d = 10 \/ d = 11 \/ d = 12 \/ d = 13
              \/ d = 14 \/ d = 15 \/ d = 16 \/ d = 17 \/ d = 18 \/ d = 19
              \/ d = 20 \/ d = 21 \/ d = 22 \/ d = 23 \/ d = 24 \/ d = 25
              \/ d = 26 \/ d = 27 \/ d = 28 \/ d = 29 \/ d = 30 \/ d = 31)
    by lia.
  repeat destruct H as [-> | H]; try subst d; reflexivity.
Qed.

Lemma days_in_month_bound (y m : Z) : Date.days_in_month y m <= 31.
Proof.
  unfold Date.days_in_month.
  destruct (m =? 2); [destruct (Date.is_leap y); lia |].
  destruct ((m =? 4) || (m =? 6) || (m =? 9) || (m =? 11)); lia.
Qed.

Lemma strptime_isoformat (d : date) :
  Date.valid d = true -> Date.strptime (Iso.isoformat d) = Ok d.
Proof.
  destruct d as [y m dd]. intros Hv.
  pose proof Hv as Hr. unfold Date.valid in Hr. simpl in Hr.
  repeat (apply andb_true_iff in Hr; destruct Hr as [Hr ?]).
  pose proof (days_in_month_bound y m) as Hb.
  unfold Date.strptime, Iso.isoformat. simpl Date.year.
  simpl Date.month. simpl Date.day.
  rewrite field_Y_pad4 by lia.
  change ("-" ++ Iso.pad2 m ++ "-" ++ Iso.pad2 dd)
    with (String "-" (Iso.pad2 m ++ "-" ++ Iso.pad2 dd)).
  cbv beta iota.
  rewrite field_m_pad2 by lia.
  rewrite field_d_pad2 by lia.
  now rewrite Hv.
Qed.

(** X12. A date written by the entry form is read back by the renewal
    detector: the ISO text of a calendar date parses to that very date,
    so a record saved with it is never skipped, and it is due exactly
    when the date lies 0, 1 or 2 days ahead of the day of the pass. *)
Theorem form_dates_are_read_back :
  forall d : date,
    Date.valid d = true ->
    Date.strptime (Iso.isoformat d) = Ok d
    /\ (forall today name cost cycle category,
           due today (mksub name cost cycle category (Iso.isoformat d))
           = ((0 <=? Date.days_between d today)
              && (Date.days_between d today <=? 2))).
Proof.
  intros d Hv. split; [now apply strptime_isoformat |].
  intros today name cost cycle category. unfold due. simpl Renewal_Date.
  now rewrite (strptime_isoformat d Hv).
Qed.

Lemma form_dates_are_read_back_witness :
  Date.strptime (Iso.isoformat (Date.mkdate 2024 2 29))
  = Ok (Date.mkdate 2024 2 29).
Proof.
  apply (proj1 (form_dates_are_read_back (Date.mkdate 2024 2 29) eq_refl)).
Defined.

Lemma drop_keeps_later (l : list subscription) (s i : nat) :
  (i < s)%nat ->
  List.filter (fun lr => negb (Nat.eqb (fst lr) i))
              (combine (seq s (List.length l)) l)
  = combine (seq s (List.length l)) l
  /\ existsb (fun lr => Nat.eqb (fst lr) i)
             (combine (seq s (List.length l)) l) = false.
Proof.
  revert s. induction l as [| r l IH]; intros s Hs; simpl.
  - now split.
  - destruct (Nat.eqb_spec s i) as [-> | Hne]; [lia |]. simpl.
    destruct (IH (S s) ltac:(lia)) as [Hf He]. now rewrite Hf, He.
Qed.

Lemma drop_from (l : list subscription) (s i : nat) :
  (s <= i)%nat ->
  (i < s + List.length l ->
   existsb (fun lr => Nat.eqb (fst lr) i)
           (combine (seq s (List.length l)) l) = true
   /\ List.map snd
        (List.filter (fun lr => negb (Nat.eqb (fst lr) i))
                     (combine (seq s (List.length l)) l))
      = (firstn (i - s) l ++ skipn (S (i - s)) l)%list)%nat
  /\ (s + List.length l <= i ->
      existsb (fun lr => Nat.eqb (fst lr) i)
              (combine (seq s (List.length l)) l) = false)%nat.
Proof.
  revert s. induction l as [| r l IH]; intros s Hs; simpl.
  - split; [lia | reflexivity].
  - destruct (Nat.eqb_spec s i) as [-> | Hne]; simpl.
    + split; [| lia]. intros _. split; [reflexivity |].
      rewrite Nat.sub_diag. simpl.
      destruct (drop_keeps_later l (S i) i ltac:(lia)) as [-> _].
      clear. generalize (S i). induction l as [| r l IH]; intros n;
        simpl; [reflexivity | now rewrite IH].
    + destruct (IH (S s) ltac:(lia)) as [Hin Hout]. split.
      * intros Hi. destruct (Hin ltac:(lia)) as [He Hrows].
        split; [exact He |]. rewrite Hrows.
        replace (i - s)%nat with (S (i - S s)) by lia. reflexivity.
      * intros Hi. apply Hout. lia.
Qed.

(** X13. Deleting from the listing. Dropping the label of the i-th row
    of a loaded frame succeeds and leaves exactly the other rows, in
    their order; a label the frame does not hold is a KeyError, which
    the listing cannot produce since it only offers labels of rows. *)
Theorem drop_index_removes_one_row :
  forall (records : list subscription) (i : nat),
    ((i < List.length records)%nat ->
     exists df,
       drop_index (Frame.of_rows records) i = Ok df
       /\ Frame.rows df = (firstn i records ++ skipn (S i) records)%list
       /\ List.length (Frame.rows df) = (List.length records - 1)%nat)
    /\ ((List.length records <= i)%nat ->
        drop_index (Frame.of_rows records) i = Raise KeyError).
Proof.
  intros records i. unfold drop_index, Frame.of_rows, Frame.rows.
  destruct (drop_from records 0 i ltac:(lia)) as [Hin Hout]. split.
  - intros Hi. destruct (Hin ltac:(lia)) as [He Hrows].
    rewrite He. eexists. split; [reflexivity |].
    rewrite Nat.sub_0_r in Hrows. split; [exact Hrows |].
    rewrite Hrows, length_app, length_firstn, length_skipn. lia.
  - intros Hi. now rewrite (Hout ltac:(lia)).
Qed.

Lemma drop_index_removes_one_row_witness :
  exists df,
    drop_index
      (Frame.of_rows
         [ sub "A" 5 "Music" "2024-01-12"; sub "B" 40 "Shopping" "bad";
           sub "C" 12 "Utilities" "2024-01-13" ]) 1
    = Ok df
    /\ Frame.rows df
       = (firstn 1 [ sub "A" 5 "Music" "2024-01-12";
                     sub "B" 40 "Shopping" "bad";
                     sub "C" 12 "Utilities" "2024-01-13" ]
          ++ skipn 2 [ sub "A" 5 "Music" "2024-01-12";
                       sub "B" 40 "Shopping" "bad";
                       sub "C" 12 "Utilities" "2024-01-13" ])%list
    /\ List.length (Frame.rows df) = 2%nat.
Proof.
  destruct (proj1 (drop_index_removes_one_row
                     [ sub "A" 5 "Music" "2024-01-12";
                       sub "B" 40 "Shopping" "bad";
                       sub "C" 12 "Utilities" "2024-01-13" ] 1)
                  ltac:(simpl; lia)) as [df [Hdrop [Hrows Hlen]]].
  exists df. split; [exact Hdrop |]. split; [exact Hrows | exact Hlen].
Defined.

(** X14. Letter case is ignored by the categoriser and honoured by the
    duplicate detector: two records whose names differ, but only in
    letter case, are given the same category and raise no duplicate
    warning. *)
Theorem case_variants_are_not_duplicates :
  forall (float_str : float -> string) (today : date)
         (r1 r2 : subscription),
    Name r1 <> Name r2 ->
    Text.lower (Name r1) = Text.lower (Name r2) ->
    suggest_category (Name r1) = suggest_category (Name r2)
    /\ exists out,
         generate_insights float_str today [r1; r2] = Ok out
         /\ of_type "Warning" out = [].
Proof.
  intros float_str today r1 r2 Hne Hlower. split.
  - unfold suggest_category. now rewrite Hlower.
  - destruct (generate_insights_by_type float_str today [r1; r2])
      as [out [Hout [_ [_ [Hw _]]]]].
    exists out. split; [exact Hout |]. rewrite Hw.
    apply no_warning_iff. simpl.
    constructor; [| constructor; [intros [] | constructor]].
    intros [H | []]. congruence.
Qed.

Lemma case_variants_are_not_duplicates_witness :
  suggest_category "Netflix" = suggest_category "NETFLIX"
  /\ exists out,
       generate_insights sample_float_str (Date.mkdate 2024 1 10)
         [ sub "Netflix" 15 "Entertainment" "2024-02-01";
           sub "NETFLIX" 15 "Entertainment" "2024-02-01" ]
       = Ok out
       /\ of_type "Warning" out = [].
Proof.
  apply (case_variants_are_not_duplicates sample_float_str
           (Date.mkdate 2024 1 10)
           (sub "Netflix" 15 "Entertainment" "2024-02-01")
           (sub "NETFLIX" 15 "Entertainment" "2024-02-01")).
  - discriminate.
  - reflexivity.
Defined.
